(** * Ledger consistency of the copra trading back end

    A shallow embedding of the loan, loan-payment and transaction code of the
    back end (Mongoose models and Express routes) and the properties of its
    ledger rules.

    Conventions of the embedding.
    - A JavaScript [Number] is a rational [Q]; arithmetic is exact, equality
      of amounts is [==].  [Math.round x] is [floor (x + 1/2)].
    - A document is a record.  A path that a document may lack
      ([total_amount_with_interest], [interest_paid], ...) is an [option];
      [None] is [undefined].  [total_paid] has the schema default [0], so it
      is always a number and [loan.total_paid || 0] is [loan.total_paid].
    - A collection keyed by [_id] is a [gmap nat _]; [findById] is lookup and
      [save] is insert.  [loan.save()] runs [LoanSchema.pre('save')] first.
    - [new Date()] is the parameter [now].
    - Every middleware and every route handler is embedded as a function of
      its own, on the documents and collections it reads and writes.
      [pre('save')] middleware is part of the [save] of its document.
      [post('save')] middleware is a function of its own: it is not chained
      into the handlers and middleware that save a document of its model,
      and a statement that needs it composes it by name.
    - The module [App] is the application as Mongoose runs it: every
      [save()] runs the [pre('save')] and the [post('save')] middleware of
      its model, and a loan is stored with the paths [LoanSchema] declares,
      so without [interest_rate], [total_amount_with_interest],
      [principal_paid] and [interest_paid].  What the application stores is
      stated over [App], on a loans collection that is [Ledger.conforming]:
      one that holds what the schema stores.
    - Where a statement gives a stored amount, it gives it by the operations
      the code performs on it, in their order.
    - A route is its handler; where a statement is about who may call it,
      the route is the handler behind [authorize], on a request whose
      [req.user] the [auth] middleware has set.
    - A function of a module that is not among the sources is a parameter
      of the code that calls it. *)

From Stdlib Require Import QArith Qminmax Qround Lqa Lia List Bool.
From stdpp Require Import base option strings gmap sorting.
Import ListNotations.
Local Open Scope Q_scope.

(** ** JavaScript operators on numbers *)
Module JS.

(** [x || d] for a possibly undefined number: [undefined] and [0] are
    falsy. *)
Definition or_ (x : option Q) (d : Q) : Q :=
  match x with
  | Some q => if Qeq_bool q 0 then d else q
  | None => d
  end.

(** [!x] *)
Definition not_ (x : option Q) : bool :=
  match x with
  | Some q => Qeq_bool q 0
  | None => true
  end.

Definition leb (x y : Q) : bool := Qle_bool x y.
Definition geb (x y : Q) : bool := Qle_bool y x.
Definition ltb (x y : Q) : bool := negb (Qle_bool y x).
Definition gtb (x y : Q) : bool := negb (Qle_bool x y).

Definition Math_min (x y : Q) : Q := Qmin x y.

(** [Math.min(...xs)] on a non-empty array *)
Definition Math_min_list (x : Q) (xs : list Q) : Q := fold_left Qmin xs x.
Definition Math_max_list (x : Q) (xs : list Q) : Q := fold_left Qmax xs x.

Definition Math_round (x : Q) : Z := Qfloor (x + (1 # 2)).

(** [xs.reduce((sum, t) => sum + f t, 0)] *)
Definition reduce_sum {A} (f : A -> Q) (xs : list A) : Q :=
  fold_left (fun sum t => sum + f t) xs 0.

End JS.

(** ** models/Loan.js *)
Module Loan.

Inductive Status := pending | approved | rejected | paid | cancelled | voided.

#[global] Instance Status_eq_dec : EqDecision Status.
Proof. solve_decision. Defined.

Record t := mk {
  _id : nat;
  supplier : nat;
  amount : Q;
  interest_rate : option Q;
  total_amount_with_interest : option Q;
  total_paid : Q;
  principal_paid : option Q;
  interest_paid : option Q;
  status : Status;
  lastPaymentDate : option nat;
  completionDate : option nat;
  createdAt : nat
}.

Definition set_total_amount_with_interest (v : option Q) (l : t) : t :=
  mk (_id l) (supplier l) (amount l) (interest_rate l) v (total_paid l)
     (principal_paid l) (interest_paid l) (status l) (lastPaymentDate l)
     (completionDate l) (createdAt l).

Definition set_total_paid (v : Q) (l : t) : t :=
  mk (_id l) (supplier l) (amount l) (interest_rate l)
     (total_amount_with_interest l) v (principal_paid l) (interest_paid l)
     (status l) (lastPaymentDate l) (completionDate l) (createdAt l).

Definition set_principal_paid (v : option Q) (l : t) : t :=
  mk (_id l) (supplier l) (amount l) (interest_rate l)
     (total_amount_with_interest l) (total_paid l) v (interest_paid l)
     (status l) (lastPaymentDate l) (completionDate l) (createdAt l).

Definition set_interest_paid (v : option Q) (l : t) : t :=
  mk (_id l) (supplier l) (amount l) (interest_rate l)
     (total_amount_with_interest l) (total_paid l) (principal_paid l) v
     (status l) (lastPaymentDate l) (completionDate l) (createdAt l).

Definition set_status (v : Status) (l : t) : t :=
  mk (_id l) (supplier l) (amount l) (interest_rate l)
     (total_amount_with_interest l) (total_paid l) (principal_paid l)
     (interest_paid l) v (lastPaymentDate l) (completionDate l) (createdAt l).

Definition set_lastPaymentDate (v : option nat) (l : t) : t :=
  mk (_id l) (supplier l) (amount l) (interest_rate l)
     (total_amount_with_interest l) (total_paid l) (principal_paid l)
     (interest_paid l) (status l) v (completionDate l) (createdAt l).

Definition set_completionDate (v : option nat) (l : t) : t :=
  mk (_id l) (supplier l) (amount l) (interest_rate l)
     (total_amount_with_interest l) (total_paid l) (principal_paid l)
     (interest_paid l) (status l) (lastPaymentDate l) v (createdAt l).

(** [LoanSchema.pre('save')]: a loan that is approved and whose
    [total_paid] reaches [amount] is marked paid. *)
Definition pre_save (now : nat) (this : t) : t :=
  if bool_decide (status this = approved) && JS.geb (total_paid this) (amount this)
  then set_completionDate (Some now) (set_status paid this)
  else this.

(** [loan.save()] on the loans collection. *)
Definition save (now : nat) (this : t) (loans : gmap nat t) : t * gmap nat t :=
  let this' := pre_save now this in
  (this', <[_id this' := this']> loans).

(** [loan.total_amount_with_interest || loan.amount] *)
Definition total_due (l : t) : Q :=
  JS.or_ (total_amount_with_interest l) (amount l).

End Loan.

(** ** models/LoanPayment.js *)
Module LoanPayment.

Inductive Method := auto_debit | manual | bank_transfer | cash.

Record t := mk {
  loan : nat;
  transaction : option nat;
  amount : Q;
  payment_date : option nat;
  payment_method : Method
}.

(** Lines 61-72 of the post-save middleware: the paths the middleware
    initialises before it applies the payment. *)
Definition init_fields (loan : Loan.t) : Loan.t :=
  let loan := Loan.set_principal_paid (Some (JS.or_ (Loan.principal_paid loan) 0)) loan in
  let loan := Loan.set_interest_paid (Some (JS.or_ (Loan.interest_paid loan) 0)) loan in
  if JS.not_ (Loan.total_amount_with_interest loan) && negb (JS.not_ (Loan.interest_rate loan))
  then
    let interest := Loan.amount loan * (JS.or_ (Loan.interest_rate loan) 0 / 100) in
    Loan.set_total_amount_with_interest (Some (Loan.amount loan + interest)) loan
  else if JS.not_ (Loan.total_amount_with_interest loan)
  then Loan.set_total_amount_with_interest (Some (Loan.amount loan)) loan
  else loan.

(** Reading a path that [init_fields] has set. *)
Definition num (x : option Q) : Q := default 0 x.

(** Lines 74-101: the payment is added to [total_paid], interest is served
    first, the rest goes to principal, and the loan is closed when
    [total_paid] reaches [total_amount_with_interest]. *)
Definition apply_payment (now : nat) (this : t) (loan0 : Loan.t) : Loan.t :=
  let loan := init_fields loan0 in
  let loan := Loan.set_total_paid (Loan.total_paid loan + amount this) loan in
  let interestRemaining :=
    num (Loan.total_amount_with_interest loan) - Loan.amount loan
    - num (Loan.interest_paid loan) in
  let loan :=
    if JS.gtb interestRemaining 0 then
      let interestPayment := JS.Math_min (amount this) interestRemaining in
      let loan :=
        Loan.set_interest_paid (Some (num (Loan.interest_paid loan) + interestPayment)) loan in
      let principalPayment := amount this - interestPayment in
      if JS.gtb principalPayment 0
      then Loan.set_principal_paid
             (Some (num (Loan.principal_paid loan) + principalPayment)) loan
      else loan
    else
      Loan.set_principal_paid (Some (num (Loan.principal_paid loan) + amount this)) loan in
  let loan :=
    if JS.geb (Loan.total_paid loan) (num (Loan.total_amount_with_interest loan))
    then Loan.set_completionDate (Some now) (Loan.set_status Loan.paid loan)
    else loan in
  Loan.set_lastPaymentDate (Some (default now (payment_date this))) loan.

(** [LoanPaymentSchema.post('save')] *)
Definition post_save (now : nat) (this : t) (loans : gmap nat Loan.t) : gmap nat Loan.t :=
  match loans !! loan this with
  | None => loans
  | Some l => snd (Loan.save now (apply_payment now this l) loans)
  end.

End LoanPayment.

(** ** models/CreditScore.js *)
Module CreditScore.

Record t := mk {
  supplier : nat;
  score : Q;
  transaction_consistency : Q;
  total_supply_score : Q;
  transaction_count_score : Q;
  eligible_amount : Q;
  transaction_count : nat;
  credit_percentage : Q;
  average_transaction : Q;
  assessment_date : nat
}.

(** [new CreditScore({...})] with the schema defaults for the paths the
    caller leaves out. *)
Definition defaults (supplier : nat) (score : Q) (now : nat) : t :=
  mk supplier score 0 0 0 0 0%nat 0.2 0 now.

(** [creditScoreSchema.pre('save')] *)
Definition pre_save (this : t) : t :=
  let s := if JS.ltb (score this) 0 then 0 else score this in
  let s := if JS.gtb s 100 then 100 else s in
  mk (supplier this) s (transaction_consistency this) (total_supply_score this)
     (transaction_count_score this) (eligible_amount this) (transaction_count this)
     (credit_percentage this) (average_transaction this) (assessment_date this).

End CreditScore.

(** ** models/Supplier.js *)
Module Supplier.

Record t := mk {
  _id : nat;
  user : nat;
  current_balance : Q;
  is_active : bool
}.

Definition set_current_balance (v : Q) (s : t) : t :=
  mk (_id s) (user s) v (is_active s).

End Supplier.

(** ** lib/utils/supplierBalanceUtils.js *)
Module supplierBalanceUtils.

(** The [$match] stage: loans of the supplier in status approved. *)
Definition matches (supplierId : nat) (l : Loan.t) : bool :=
  bool_decide (Loan.supplier l = supplierId)
  && bool_decide (Loan.status l = Loan.approved).

(** The aggregation pipeline: [$match], then one [$group] over all matched
    documents that sums [amount - total_paid].  [$group] yields no document
    when nothing matched. *)
Definition aggregate (supplierId : nat) (loans : gmap nat Loan.t) : list Q :=
  match List.filter (matches supplierId) (map_to_list loans).*2 with
  | [] => []
  | matched =>
      [fold_left (fun acc l => acc + (Loan.amount l - Loan.total_paid l)) matched 0]
  end.

(** [recalculateSupplierBalance(supplierId)]: the value returned and the
    suppliers collection after [findByIdAndUpdate]. *)
Definition recalculateSupplierBalance (supplierId : nat)
    (loans : gmap nat Loan.t) (suppliers : gmap nat Supplier.t)
    : Q * gmap nat Supplier.t :=
  let loanBalances := aggregate supplierId loans in
  let currentBalance :=
    match loanBalances with
    | totalRemaining :: _ => totalRemaining
    | [] => 0
    end in
  (currentBalance, alter (Supplier.set_current_balance currentBalance) supplierId suppliers).

End supplierBalanceUtils.

(** ** models/Transaction.js: the document *)
Module Transaction.

Inductive Status := pending | completed | cancelled | voided.

#[global] Instance Status_eq_dec : EqDecision Status.
Proof. solve_decision. Defined.

(** An entry of [loan_payments]: which loan was debited and by how much. *)
Record payment_ref := mk_ref {
  loan : nat;
  amount : Q
}.

Record t := mk {
  _id : nat;
  supplier : nat;
  transaction_number : nat;
  status : Status;
  quantity : Q;
  less_kilo : Q;
  total_kilo : Q;
  unit_price : Q;
  total_price : Q;
  total_amount : Q;
  loan_deduction : Q;
  amount_after_deduction : option Q;
  paid_amount : Q;
  is_deleted : bool;
  loan_payments : list payment_ref
}.

Definition set_status (v : Status) (x : t) : t :=
  mk (_id x) (supplier x) (transaction_number x) v (quantity x) (less_kilo x)
     (total_kilo x) (unit_price x) (total_price x) (total_amount x)
     (loan_deduction x) (amount_after_deduction x) (paid_amount x)
     (is_deleted x) (loan_payments x).

Definition set_loan_deduction (v : Q) (x : t) : t :=
  mk (_id x) (supplier x) (transaction_number x) (status x) (quantity x)
     (less_kilo x) (total_kilo x) (unit_price x) (total_price x)
     (total_amount x) v (amount_after_deduction x) (paid_amount x)
     (is_deleted x) (loan_payments x).

Definition set_amount_after_deduction (v : option Q) (x : t) : t :=
  mk (_id x) (supplier x) (transaction_number x) (status x) (quantity x)
     (less_kilo x) (total_kilo x) (unit_price x) (total_price x)
     (total_amount x) (loan_deduction x) v (paid_amount x)
     (is_deleted x) (loan_payments x).

Definition set_paid_amount (v : Q) (x : t) : t :=
  mk (_id x) (supplier x) (transaction_number x) (status x) (quantity x)
     (less_kilo x) (total_kilo x) (unit_price x) (total_price x)
     (total_amount x) (loan_deduction x) (amount_after_deduction x) v
     (is_deleted x) (loan_payments x).

Definition set_loan_payments (v : list payment_ref) (x : t) : t :=
  mk (_id x) (supplier x) (transaction_number x) (status x) (quantity x)
     (less_kilo x) (total_kilo x) (unit_price x) (total_price x)
     (total_amount x) (loan_deduction x) (amount_after_deduction x)
     (paid_amount x) (is_deleted x) v.

(** [transactionSchema.pre('save')].  [isNew] tells a first save from a
    later one; the amounts are recomputed from the weights on a first save
    (every path counts as modified then). *)
Definition pre_save (isNew : bool) (this : t) : t :=
  let this :=
    if isNew then
      let total_kilo := quantity this - less_kilo this in
      let total_price := total_kilo * unit_price this in
      mk (_id this) (supplier this) (transaction_number this) (status this)
         (quantity this) (less_kilo this) total_kilo (unit_price this)
         total_price total_price (loan_deduction this)
         (amount_after_deduction this) (paid_amount this) (is_deleted this)
         (loan_payments this)
    else this in
  let this :=
    if isNew || JS.not_ (amount_after_deduction this)
    then set_amount_after_deduction (Some (total_amount this)) this
    else this in
  if isNew then set_paid_amount 0 this else this.

End Transaction.

(** ** The collections *)
Module Db.

Record t := mk {
  loans : gmap nat Loan.t;
  loanpayments : list LoanPayment.t;
  transactions : gmap nat Transaction.t;
  creditscores : list CreditScore.t;
  suppliers : gmap nat Supplier.t
}.

Definition set_loans (v : gmap nat Loan.t) (d : t) : t :=
  mk v (loanpayments d) (transactions d) (creditscores d) (suppliers d).

Definition set_loanpayments (v : list LoanPayment.t) (d : t) : t :=
  mk (loans d) v (transactions d) (creditscores d) (suppliers d).

Definition set_transactions (v : gmap nat Transaction.t) (d : t) : t :=
  mk (loans d) (loanpayments d) v (creditscores d) (suppliers d).

Definition set_creditscores (v : list CreditScore.t) (d : t) : t :=
  mk (loans d) (loanpayments d) (transactions d) v (suppliers d).

Definition set_suppliers (v : gmap nat Supplier.t) (d : t) : t :=
  mk (loans d) (loanpayments d) (transactions d) (creditscores d) v.

(** [Loan.find(...).sort({ createdAt: 1 })]: oldest first. *)
Definition older (a b : Loan.t) : Prop := (Loan.createdAt a <= Loan.createdAt b)%nat.

#[global] Instance older_dec : RelDecision older.
Proof. intros a b. unfold older. apply _. Defined.

Definition find_loans_oldest_first (p : Loan.t -> bool) (d : t) : list Loan.t :=
  merge_sort older (List.filter p (map_to_list (loans d)).*2).

(** [Transaction.find({ supplier, status: 'completed' })] *)
Definition completed_of (supplier : nat) (x : Transaction.t) : bool :=
  bool_decide (Transaction.supplier x = supplier)
  && bool_decide (Transaction.status x = Transaction.completed).

Definition find_completed (supplier : nat) (d : t) : list Transaction.t :=
  List.filter (completed_of supplier) (map_to_list (transactions d)).*2.

(** [CreditScore.findOne({ supplier })] *)
Definition findOne_creditscore (supplier : nat) (d : t) : option CreditScore.t :=
  List.find (fun c => bool_decide (CreditScore.supplier c = supplier)) (creditscores d).

(** [creditScore.save()] of a new document and of the one [findOne] gave. *)
Definition insert_creditscore (c : CreditScore.t) (d : t) : t :=
  set_creditscores (creditscores d ++ [CreditScore.pre_save c]) d.

Fixpoint replace_first (supplier : nat) (c : CreditScore.t) (cs : list CreditScore.t)
    : list CreditScore.t :=
  match cs with
  | [] => []
  | c0 :: rest =>
      if bool_decide (CreditScore.supplier c0 = supplier)
      then c :: rest
      else c0 :: replace_first supplier c rest
  end.

Definition update_creditscore (c : CreditScore.t) (d : t) : t :=
  set_creditscores
    (replace_first (CreditScore.supplier c) (CreditScore.pre_save c) (creditscores d)) d.

(** [LoanPayment.deleteOne({ transaction, loan })]: the first match goes. *)
Fixpoint deleteOne_payment (transaction loan : nat) (ps : list LoanPayment.t)
    : list LoanPayment.t :=
  match ps with
  | [] => []
  | p :: rest =>
      if bool_decide (LoanPayment.transaction p = Some transaction)
         && bool_decide (LoanPayment.loan p = loan)
      then rest
      else p :: deleteOne_payment transaction loan rest
  end.

End Db.

(** ** models/Transaction.js: [transactionSchema.post('save')] *)
Module TransactionHooks.

(** The query of the auto-debit: loans of the supplier that are approved
    and whose [total_paid] is below [total_amount_with_interest].  In the
    [$expr] a missing field is below every number, so a loan without
    [total_amount_with_interest] does not match. *)
Definition outstanding (supplier : nat) (l : Loan.t) : bool :=
  bool_decide (Loan.supplier l = supplier)
  && bool_decide (Loan.status l = Loan.approved)
  && match Loan.total_amount_with_interest l with
     | Some t => JS.ltb (Loan.total_paid l) t
     | None => false
     end.

(** The mutable locals of the loop and the collections it writes. *)
Record loop_state := mk_state {
  remainingDeduction : Q;
  totalDeduction : Q;
  loanPaymentsArray : list Transaction.payment_ref;
  db : Db.t
}.

(** [loanRemainingAmount] *)
Definition loanRemainingAmount (loan : Loan.t) : Q :=
  Loan.total_due loan - Loan.total_paid loan.

(** The update of one loan document by [currentDeduction]: the deduction
    is added to [total_paid], interest is served first, and the loan is
    closed when [total_paid] reaches what is due. *)
Definition deduct (now : nat) (loan : Loan.t) (currentDeduction : Q) : Loan.t :=
  let loan := Loan.set_total_paid (Loan.total_paid loan + currentDeduction) loan in
  let interestRemaining :=
    Loan.total_due loan - Loan.amount loan - JS.or_ (Loan.interest_paid loan) 0 in
  let loan :=
    if JS.gtb interestRemaining 0 then
      let interestPayment := JS.Math_min currentDeduction interestRemaining in
      let loan :=
        Loan.set_interest_paid
          (Some (JS.or_ (Loan.interest_paid loan) 0 + interestPayment)) loan in
      let principalPayment := currentDeduction - interestPayment in
      Loan.set_principal_paid
        (Some (JS.or_ (Loan.principal_paid loan) 0 + principalPayment)) loan
    else
      Loan.set_principal_paid
        (Some (JS.or_ (Loan.principal_paid loan) 0 + currentDeduction)) loan in
  if JS.geb (Loan.total_paid loan) (Loan.total_due loan)
  then Loan.set_completionDate (Some now) (Loan.set_status Loan.paid loan)
  else loan.

(** [for (const loan of outstandingLoans)]: the result is the array of loan
    documents as the loop leaves them, and the final locals. *)
Fixpoint deduct_loop (now this_id : nat) (outstandingLoans : list Loan.t)
    (st : loop_state) : list Loan.t * loop_state :=
  match outstandingLoans with
  | [] => ([], st)
  | loan :: rest =>
      if JS.leb (remainingDeduction st) 0 then (loan :: rest, st)
      else
        let currentDeduction :=
          JS.Math_min (remainingDeduction st) (loanRemainingAmount loan) in
        if JS.gtb currentDeduction 0 then
          let loanPayment :=
            LoanPayment.mk (Loan._id loan) (Some this_id) currentDeduction
              (Some now) LoanPayment.auto_debit in
          let '(loan', loans') :=
            Loan.save now (deduct now loan currentDeduction) (Db.loans (db st)) in
          let d := Db.set_loans loans' (db st) in
          let d := Db.set_loanpayments (Db.loanpayments d ++ [loanPayment]) d in
          let st' :=
            mk_state (remainingDeduction st - currentDeduction)
                     (totalDeduction st + currentDeduction)
                     (loanPaymentsArray st
                        ++ [Transaction.mk_ref (Loan._id loan) currentDeduction])
                     d in
          let '(docs, st'') := deduct_loop now this_id rest st' in
          (loan' :: docs, st'')
        else
          let '(docs, st'') := deduct_loop now this_id rest st in
          (loan :: docs, st'')
  end.

(** The auto-debit half of the middleware: the transaction document, the
    loan documents and the collections after it. *)
Definition auto_debit (now : nat) (this : Transaction.t) (d : Db.t)
    : Transaction.t * list Loan.t * Db.t :=
  let outstandingLoans :=
    Db.find_loans_oldest_first (outstanding (Transaction.supplier this)) d in
  if (0 <? length outstandingLoans)%nat then
    let maxDeductionAmount := Transaction.total_amount this * 0.4 in
    let '(docs, st) :=
      deduct_loop now (Transaction._id this) outstandingLoans
        (mk_state maxDeductionAmount 0 [] d) in
    let update (x : Transaction.t) : Transaction.t :=
      let x := Transaction.set_loan_deduction (totalDeduction st) x in
      let x :=
        Transaction.set_amount_after_deduction
          (Some (Transaction.total_amount this - totalDeduction st)) x in
      let x :=
        Transaction.set_paid_amount (Transaction.total_amount this - totalDeduction st) x in
      Transaction.set_loan_payments (loanPaymentsArray st) x in
    (update this, docs,
     Db.set_transactions (alter update (Transaction._id this) (Db.transactions (db st))) (db st))
  else
    let update (x : Transaction.t) : Transaction.t :=
      Transaction.set_paid_amount (Transaction.total_amount this)
        (Transaction.set_amount_after_deduction (Some (Transaction.total_amount this)) x) in
    (update this, [],
     Db.set_transactions (alter update (Transaction._id this) (Db.transactions d)) d).

(** The score-tiered credit percentage of the middleware. *)
Definition creditPercentage_of (finalScore : Q) : Q :=
  if JS.geb finalScore 80 then 0.6
  else if JS.geb finalScore 60 then 0.5
  else if JS.geb finalScore 40 then 0.4
  else if JS.gtb finalScore 30 then 0.3
  else if JS.geb finalScore 20 then 0.15
  else 0.

(** The credit-score half for fewer than two completed transactions: an
    initial score is created unless the supplier already has one. *)
Definition initial_credit_score (now : nat) (this : Transaction.t) (d : Db.t) : Db.t :=
  match Db.findOne_creditscore (Transaction.supplier this) d with
  | Some _ => d
  | None =>
      let c := CreditScore.defaults (Transaction.supplier this) 20 now in
      Db.insert_creditscore
        (CreditScore.mk (CreditScore.supplier c) (CreditScore.score c)
           (CreditScore.transaction_consistency c) (CreditScore.total_supply_score c)
           (CreditScore.transaction_count_score c)
           (Transaction.total_amount this * 0.15) 1%nat 0.15
           (Transaction.total_amount this) now) d
  end.

(** The credit-score half for two or more completed transactions. *)
Definition formula_credit_score (now : nat) (this : Transaction.t)
    (supplierTransactions : list Transaction.t) (d : Db.t) : Db.t :=
  let amounts := map Transaction.total_amount supplierTransactions in
  let smallestTransaction := JS.Math_min_list (hd 0 amounts) (tl amounts) in
  let largestTransaction := JS.Math_max_list (hd 0 amounts) (tl amounts) in
  let transactionConsistency := smallestTransaction / largestTransaction * 100 in
  let totalSupplied := JS.reduce_sum Transaction.total_amount supplierTransactions in
  let count := inject_Z (Z.of_nat (length supplierTransactions)) in
  let maxPossibleSupply := largestTransaction * count in
  let totalSupplyScore := totalSupplied / maxPossibleSupply * 100 in
  let idealTransactionCycle := 10 in
  let transactionCountScore := JS.Math_min 100 (count / idealTransactionCycle * 100) in
  let finalScore := (transactionConsistency + totalSupplyScore + transactionCountScore) / 3 in
  let averageTransaction := totalSupplied / count in
  let creditPercentage := creditPercentage_of finalScore in
  let eligibleAmount := inject_Z (JS.Math_round (averageTransaction * creditPercentage)) in
  let round (x : Q) : Q := inject_Z (JS.Math_round x) in
  match Db.findOne_creditscore (Transaction.supplier this) d with
  | None =>
      Db.insert_creditscore
        (CreditScore.mk (Transaction.supplier this) (round finalScore)
           (round transactionConsistency) (round totalSupplyScore)
           (round transactionCountScore) (round eligibleAmount)
           (length supplierTransactions) creditPercentage averageTransaction now) d
  | Some _ =>
      Db.update_creditscore
        (CreditScore.mk (Transaction.supplier this) (round finalScore)
           (round transactionConsistency) (round totalSupplyScore)
           (round transactionCountScore) eligibleAmount
           (length supplierTransactions) creditPercentage averageTransaction now) d
  end.

Definition credit_score (now : nat) (this : Transaction.t) (d : Db.t) : Db.t :=
  let supplierTransactions := Db.find_completed (Transaction.supplier this) d in
  if (length supplierTransactions <? 2)%nat
  then initial_credit_score now this d
  else formula_credit_score now this supplierTransactions d.

(** The whole middleware: nothing unless the transaction is completed; then
    the auto-debit, the credit score and the supplier balance. *)
Definition post_save (now : nat) (this : Transaction.t) (d : Db.t) : Transaction.t * Db.t :=
  if bool_decide (Transaction.status this = Transaction.completed) then
    let '(this', _, d) := auto_debit now this d in
    let d := credit_score now this' d in
    let '(_, suppliers') :=
      supplierBalanceUtils.recalculateSupplierBalance
        (Transaction.supplier this') (Db.loans d) (Db.suppliers d) in
    (this', Db.set_suppliers suppliers' d)
  else (this, d).

End TransactionHooks.

(** ** HTTP outcomes of the route handlers *)
Inductive HttpError := BadRequest | NotFound.

Inductive response (A : Type) :=
| Sent (body : A)
| Failed (e : HttpError).

Arguments Sent {A} body.
Arguments Failed {A} e.

(** ** routes/transaction.routes.js *)
Module transactionRouter.

Record body := mk_body {
  supplier : option nat;
  quantity : option Q;
  less_kilo : option Q;
  unit_price : option Q;
  status : option Transaction.Status
}.

(** [Loan.find({ supplier, status: 'approved' })] of the create handler. *)
Definition approved_of (supplier : nat) (l : Loan.t) : bool :=
  bool_decide (Loan.supplier l = supplier)
  && bool_decide (Loan.status l = Loan.approved).

(** [transaction.save()] on the transactions collection. *)
Definition save (isNew : bool) (x : Transaction.t) (d : Db.t) : Transaction.t * Db.t :=
  let x' := Transaction.pre_save isNew x in
  (x', Db.set_transactions (<[Transaction._id x' := x']> (Db.transactions d)) d).

(** [transactionRouter.post('/')]: create a transaction and debit the
    oldest approved loan.  [new_id] is the [_id] of the new document. *)
Definition post (now new_id : nat) (req : body) (d : Db.t)
    : response Transaction.t * Db.t :=
  match supplier req with
  | None => (Failed BadRequest, d)
  | Some supplier =>
    if JS.not_ (quantity req) || JS.not_ (unit_price req) then (Failed BadRequest, d)
    else
      let total_kilo := JS.or_ (quantity req) 0 - JS.or_ (less_kilo req) 0 in
      let total_price := total_kilo * JS.or_ (unit_price req) 0 in
      let transaction :=
        Transaction.mk new_id supplier now (default Transaction.completed (status req))
          (JS.or_ (quantity req) 0) (JS.or_ (less_kilo req) 0) total_kilo
          (JS.or_ (unit_price req) 0) total_price total_price 0 None 0 false [] in
      let '(transaction, d) := save true transaction d in
      let loans := Db.find_loans_oldest_first (approved_of supplier) d in
      let '(transaction, d) :=
        match loans with
        | loan :: _ =>
            let remainingLoanAmount := Loan.amount loan - Loan.total_paid loan in
            let deductionAmount := JS.Math_min total_price remainingLoanAmount in
            if JS.gtb deductionAmount 0 then
              let transaction := Transaction.set_loan_deduction deductionAmount transaction in
              let transaction :=
                Transaction.set_amount_after_deduction
                  (Some (total_price - deductionAmount)) transaction in
              let transaction :=
                Transaction.set_paid_amount (total_price - deductionAmount) transaction in
              let transaction :=
                Transaction.set_loan_payments
                  [Transaction.mk_ref (Loan._id loan) deductionAmount] transaction in
              let '(transaction, d) := save false transaction d in
              let payment :=
                LoanPayment.mk (Loan._id loan) (Some (Transaction._id transaction))
                  deductionAmount (Some now) LoanPayment.auto_debit in
              let d := Db.set_loanpayments (Db.loanpayments d ++ [payment]) d in
              let loan := Loan.set_total_paid (Loan.total_paid loan + deductionAmount) loan in
              let loan := Loan.set_lastPaymentDate (Some now) loan in
              let loan :=
                if JS.geb (Loan.total_paid loan) (Loan.amount loan)
                then Loan.set_completionDate (Some now) (Loan.set_status Loan.paid loan)
                else loan in
              let '(_, loans') := Loan.save now loan (Db.loans d) in
              (transaction, Db.set_loans loans' d)
            else (transaction, d)
        | [] =>
            let transaction := Transaction.set_loan_deduction 0 transaction in
            let transaction :=
              Transaction.set_amount_after_deduction (Some total_price) transaction in
            let transaction := Transaction.set_paid_amount total_price transaction in
            save false transaction d
        end in
      match Db.transactions d !! Transaction._id transaction with
      | Some populatedTransaction => (Sent populatedTransaction, d)
      | None => (Failed NotFound, d)
      end
  end.

(** The body of [for (const payment of transaction.loan_payments)] in the
    cancel and the void handler: take the amount back from [total_paid],
    reopen a paid loan that is no longer covered, delete the payment row. *)
Definition reverse_payment (now transaction_id : nat) (d : Db.t)
    (payment : Transaction.payment_ref) : Db.t :=
  match Db.loans d !! Transaction.loan payment with
  | Some loan =>
      let loan :=
        Loan.set_total_paid (Loan.total_paid loan - Transaction.amount payment) loan in
      let loan :=
        if bool_decide (Loan.status loan = Loan.paid)
           && JS.ltb (Loan.total_paid loan) (Loan.amount loan)
        then Loan.set_completionDate None (Loan.set_status Loan.approved loan)
        else loan in
      let '(_, loans') := Loan.save now loan (Db.loans d) in
      let d := Db.set_loans loans' d in
      Db.set_loanpayments
        (Db.deleteOne_payment transaction_id (Transaction.loan payment) (Db.loanpayments d)) d
  | None => d
  end.

(** The cancel and the void handler are the same code up to the status
    they set; [target] is that status. *)
Definition terminate (target : Transaction.Status) (now id : nat) (d : Db.t)
    : response Transaction.t * Db.t :=
  match Db.transactions d !! id with
  | None => (Failed NotFound, d)
  | Some transaction =>
      if negb (bool_decide (Transaction.status transaction = Transaction.completed))
      then (Failed BadRequest, d)
      else
        let d :=
          if JS.gtb (Transaction.loan_deduction transaction) 0
             && (0 <? length (Transaction.loan_payments transaction))%nat
          then fold_left (reverse_payment now (Transaction._id transaction))
                 (Transaction.loan_payments transaction) d
          else d in
        let transaction := Transaction.set_status target transaction in
        let transaction := Transaction.set_loan_deduction 0 transaction in
        let transaction := Transaction.set_loan_payments [] transaction in
        let transaction := Transaction.set_paid_amount 0 transaction in
        let '(transaction, d) := save false transaction d in
        (Sent transaction, d)
  end.

(** [transactionRouter.patch('/:id/cancel')] *)
Definition cancel : nat -> nat -> Db.t -> response Transaction.t * Db.t :=
  terminate Transaction.cancelled.

(** [transactionRouter.patch('/:id/void')] *)
Definition void : nat -> nat -> Db.t -> response Transaction.t * Db.t :=
  terminate Transaction.voided.

End transactionRouter.

(** ** routes/loan.routes.js *)
Module loanRouter.

Record eligibility := mk_eligibility {
  eligible : bool;
  limit : Q;
  score : option Q;
  average_transaction : option Q;
  transaction_count : option nat
}.

(** [checkLoanEligibility(supplierId, requestedAmount)] *)
Definition checkLoanEligibility (supplierId : nat) (requestedAmount : Q) (d : Db.t)
    : eligibility :=
  let transactions := Db.find_completed supplierId d in
  let transactionCount := length transactions in
  if (transactionCount =? 0)%nat then mk_eligibility false 0 None None None
  else
    let totalAmount := JS.reduce_sum (fun t => JS.or_ (Some (Transaction.total_amount t)) 0) transactions in
    let averageTransaction := totalAmount / inject_Z (Z.of_nat transactionCount) in
    let creditPercentage := 0.40 in
    let loanLimit := inject_Z (JS.Math_round (averageTransaction * creditPercentage)) in
    mk_eligibility true loanLimit (Some 0) (Some averageTransaction) (Some transactionCount).

Record body := mk_body {
  supplier_id : nat;
  amount : Q;
  interest_rate : Q;
  due_date : nat
}.

(** [loanRouter.post('/')]: the eligibility gate and the creation of a
    pending loan.  [new_id] is the [_id] of the new document. *)
Definition post (now new_id : nat) (req : body) (d : Db.t) : response Loan.t * Db.t :=
  let eligibility := checkLoanEligibility (supplier_id req) (amount req) d in
  if negb (eligible eligibility) || JS.leb (limit eligibility) 0
  then (Failed BadRequest, d)
  else
    let interestAmount := amount req * (interest_rate req / 100) in
    let totalAmountWithInterest := amount req + interestAmount in
    let loan :=
      Loan.mk new_id (supplier_id req) (amount req) (Some (interest_rate req))
        (Some totalAmountWithInterest) 0 (Some 0) (Some 0) Loan.pending None None now in
    let '(loan, loans') := Loan.save now loan (Db.loans d) in
    (Sent loan, Db.set_loans loans' d).

(** [loanRouter.post('/:id/payments')]: a manual payment.  The handler
    validates, stores the payment and leaves the update of the loan to
    [LoanPaymentSchema.post('save')]. *)
Definition post_payment (now id : nat) (amount : option Q)
    (payment_method : option LoanPayment.Method) (d : Db.t)
    : response LoanPayment.t * Db.t :=
  if JS.not_ amount || JS.leb (JS.or_ amount 0) 0 then (Failed BadRequest, d)
  else
    match Db.loans d !! id with
    | None => (Failed NotFound, d)
    | Some loan =>
        if negb (bool_decide (Loan.status loan = Loan.approved))
        then (Failed BadRequest, d)
        else
          let payment :=
            LoanPayment.mk id None (JS.or_ amount 0) (Some now)
              (default LoanPayment.manual payment_method) in
          (Sent payment, Db.set_loanpayments (Db.loanpayments d ++ [payment]) d)
    end.

End loanRouter.

(** ** routes/loanPayment.routes.js *)
Module loanPaymentRouter.

(** The payment distribution of [loanPaymentRouter.post('/')].  Without
    [total_amount_with_interest] the subtraction is on [undefined] and the
    portions are not numbers; that case is [None]. *)
Definition distribution (loanRecord : Loan.t) (amount : Q) : option (Q * Q) :=
  match Loan.total_amount_with_interest loanRecord with
  | None => None
  | Some total_amount_with_interest =>
      let remainingInterest :=
        total_amount_with_interest - Loan.amount loanRecord
        - JS.or_ (Loan.interest_paid loanRecord) 0 in
      let interestPayment := JS.Math_min remainingInterest amount in
      let principalPayment := amount - interestPayment in
      Some (interestPayment, principalPayment)
  end.

(** The handler up to [loanRecord.save()]: the loan document it saves
    ([None] when the portions are not numbers). *)
Definition post (now : nat) (loanId : nat) (amount : Q)
    (payment_method : option LoanPayment.Method) (d : Db.t)
    : response (option Loan.t) * Db.t :=
  match Db.loans d !! loanId with
  | None => (Failed NotFound, d)
  | Some loanRecord =>
      let loanPayment :=
        LoanPayment.mk loanId None amount (Some now)
          (default LoanPayment.auto_debit payment_method) in
      let d := Db.set_loanpayments (Db.loanpayments d ++ [loanPayment]) d in
      match distribution loanRecord amount, Loan.total_amount_with_interest loanRecord with
      | Some (interestPayment, principalPayment), Some total_amount_with_interest =>
          let loanRecord :=
            Loan.set_total_paid (Loan.total_paid loanRecord + amount) loanRecord in
          let loanRecord :=
            Loan.set_interest_paid
              (Some (JS.or_ (Loan.interest_paid loanRecord) 0 + interestPayment)) loanRecord in
          let loanRecord :=
            Loan.set_principal_paid
              (Some (JS.or_ (Loan.principal_paid loanRecord) 0 + principalPayment)) loanRecord in
          let loanRecord :=
            if JS.geb (Loan.total_paid loanRecord) total_amount_with_interest
            then Loan.set_status Loan.paid loanRecord
            else loanRecord in
          let '(loanRecord, loans') := Loan.save now loanRecord (Db.loans d) in
          (Sent (Some loanRecord), Db.set_loans loans' d)
      | _, _ => (Sent None, d)
      end
  end.

End loanPaymentRouter.

(** ** routes/creditScore.routes.js *)
Module creditScoreRouter.

(** The body the handler sends when it computes the score on read. *)
Record computed := mk_computed {
  score : Q;
  transaction_consistency : Q;
  total_supply_score : Q;
  transaction_count_score : Q;
  eligible_amount : Q;
  credit_percentage : Q;
  transaction_count : nat;
  average_transaction : Q
}.

(** [CreditScore.findOne({ supplier }).sort({ assessment_date: -1 })] *)
Definition latestScore (supplierId : nat) (d : Db.t) : option CreditScore.t :=
  fold_left
    (fun best c =>
       if bool_decide (CreditScore.supplier c = supplierId) then
         match best with
         | Some b =>
             if (CreditScore.assessment_date b <? CreditScore.assessment_date c)%nat
             then Some c else best
         | None => Some c
         end
       else best)
    (Db.creditscores d) None.

(** [creditScoreRouter.get('/supplier/:supplierId')]: the stored score if
    there is one, else a score computed from the completed transactions.
    The amounts of this handler are the kilos of the transactions
    ([t.total_kilo || t.quantity]). *)
Definition get_supplier (supplierId : nat) (d : Db.t) : CreditScore.t + computed :=
  match latestScore supplierId d with
  | Some latest => inl latest
  | None =>
      let supplierTransactions := Db.find_completed supplierId d in
      let transactionCount := length supplierTransactions in
      let round (x : Q) : Q := inject_Z (JS.Math_round x) in
      if (0 <? transactionCount)%nat then
        let creditPercentage := 0.40 in
        let kilos (t : Transaction.t) : Q :=
          JS.or_ (Some (Transaction.total_kilo t)) (Transaction.quantity t) in
        let amounts := map kilos supplierTransactions in
        let totalSupplied := JS.reduce_sum kilos supplierTransactions in
        let count := inject_Z (Z.of_nat transactionCount) in
        let averageTransaction := totalSupplied / count in
        let '(transactionConsistency, totalSupplyScore, transactionCountScore, finalScore) :=
          if (2 <=? transactionCount)%nat then
            let smallestTransaction := JS.Math_min_list (hd 0 amounts) (tl amounts) in
            let largestTransaction := JS.Math_max_list (hd 0 amounts) (tl amounts) in
            let transactionConsistency := smallestTransaction / largestTransaction * 100 in
            let maxPossibleSupply := largestTransaction * count in
            let totalSupplyScore := totalSupplied / maxPossibleSupply * 100 in
            let idealTransactionCycle := 10 in
            let transactionCountScore :=
              JS.Math_min 100 (count / idealTransactionCycle * 100) in
            (transactionConsistency, totalSupplyScore, transactionCountScore,
             round ((transactionConsistency + totalSupplyScore + transactionCountScore) / 3))
          else (100, 100, 10, 20) in
        let eligibleAmount := round (averageTransaction * creditPercentage) in
        inr (mk_computed finalScore (round transactionConsistency)
               (round totalSupplyScore) (round transactionCountScore) eligibleAmount
               creditPercentage transactionCount (round averageTransaction))
      else inr (mk_computed 0 0 0 0 0 0 0%nat 0)
  end.

End creditScoreRouter.

(** ** The balance contract, in the words of the specification *)
Module Contract.

(** [sum(loan.amount - loan.totalPaid)] over the approved loans of the
    supplier. *)
Definition balance (supplierId : nat) (loans : gmap nat Loan.t) : Q :=
  fold_right (fun l acc => (Loan.amount l - Loan.total_paid l) + acc) 0
    (List.filter
       (fun l => bool_decide (Loan.supplier l = supplierId /\ Loan.status l = Loan.approved))
       (map_to_list loans).*2).

End Contract.

(** ** Fixtures: the loan of the worked scenario *)
Module Fixtures.

(** A loan of 1000 at 10 percent, nothing paid yet, approved. *)
Definition loan_1000 : Loan.t :=
  Loan.mk 1 7 1000 (Some 10) (Some 1100) 0 (Some 0) (Some 0) Loan.approved None None 1.

(** The same loan as the Loan schema stores it: no interest paths. *)
Definition loan_1000_plain : Loan.t :=
  Loan.mk 1 7 1000 None None 0 None None Loan.approved None None 1.

Definition one_loan (l : Loan.t) : gmap nat Loan.t := {[ Loan._id l := l ]}.

Definition payment_800 : LoanPayment.t :=
  LoanPayment.mk 1 None 800 (Some 5%nat) LoanPayment.manual.

(** Two small loans of supplier 7, the first created first. *)
Definition loan_100 : Loan.t :=
  Loan.mk 1 7 100 None (Some 100) 0 None None Loan.approved None None 1.

Definition loan_50 : Loan.t :=
  Loan.mk 2 7 50 None (Some 50) 0 None None Loan.approved None None 2.

Definition loan_500 : Loan.t :=
  Loan.mk 2 7 500 None (Some 500) 0 None None Loan.approved None None 2.

Definition db_of (loans : list Loan.t) (transactions : list Transaction.t) : Db.t :=
  Db.mk (list_to_map (map (fun l => (Loan._id l, l)) loans)) []
        (list_to_map (map (fun x => (Transaction._id x, x)) transactions)) [] ∅.

(** A completed purchase of supplier 7 worth [total], freshly saved. *)
Definition purchase (id : nat) (total : Q) : Transaction.t :=
  Transaction.mk id 7 id Transaction.completed total 0 total 1 total total 0
    (Some total) 0 false [].

(** A completed purchase of 50 kilos at 10 a kilo, worth 500. *)
Definition purchase_50_kilos (id : nat) : Transaction.t :=
  Transaction.mk id 7 id Transaction.completed 50 0 50 10 500 500 0
    (Some 500) 0 false [].


(** The worked scenario: the loan of 1000 at 10 percent and a completed
    purchase of 2000; then the post-save middleware of the purchase; then
    the cancellation and the voiding of the purchase. *)
Definition scenario : Db.t := db_of [loan_1000] [purchase 10 2000].

Definition scenario_debited : Db.t :=
  (TransactionHooks.post_save 0 (purchase 10 2000) scenario).2.


Definition scenario_voided : Db.t :=
  (transactionRouter.void 1 10 scenario_debited).2.


Definition loan_closed : Loan.t :=
  Loan.mk 1 7 1000 (Some 10) (Some 1100) 1100 (Some 1000) (Some 100) Loan.paid
    None (Some 3%nat) 1.

(** A request for a loan of 1000 at 10 percent. *)
Definition request_1000 : loanRouter.body := loanRouter.mk_body 7 1000 10 99.

End Fixtures.

(** ** middleware/auth.js *)
Module auth.

Inductive Method := GET | POST | PUT | PATCH | DELETE.

#[global] Instance Method_eq_dec : EqDecision Method.
Proof. solve_decision. Defined.

(** [req.user]: the decoded token. *)
Record user := mk_user {
  id : nat;
  role : string
}.

(** What a middleware does with a request: it answers 403 or calls
    [next()]. *)
Inductive verdict := Forbidden | Next.

(** [authorize(...roles)] *)
Definition authorize (roles : list string) (method : Method) (u : user) : verdict :=
  if negb (bool_decide (role u ∈ roles)) then Forbidden
  else if bool_decide (role u = "owner"%string) && bool_decide (method = DELETE)
  then Forbidden
  else Next.

(** A route behind [authorize]: the 403 of the middleware, or what the
    handler answers. *)
Inductive guarded (A : Type) :=
| Refused
| Handled (a : A).

Arguments Refused {A}.
Arguments Handled {A} a.

Definition behind {A} (v : verdict) (d : Db.t) (handler : A * Db.t) : guarded A * Db.t :=
  match v with
  | Forbidden => (Refused, d)
  | Next => (Handled handler.1, handler.2)
  end.

End auth.

(** ** routes/loan.routes.js: the status routes *)
Module loanRouterPatch.

(** What a status handler answers: 200 with the loan read back by
    [Loan.findById], or the status code of the refusal. *)
Inductive outcome :=
| Status200 (loan : option Loan.t)
| Status400
| Status403
| Status404.

(** [Supplier.findOne({ user })] *)
Definition findOne_supplier (user : nat) (d : Db.t) : option Supplier.t :=
  List.find (fun s => bool_decide (Supplier.user s = user))
    (map_to_list (Db.suppliers d)).*2.

(** [loan.save()] followed by the [Loan.findById(loan._id)] of the
    response. *)
Definition save_and_send (now : nat) (loan : Loan.t) (d : Db.t) : outcome * Db.t :=
  let '(loan, loans') := Loan.save now loan (Db.loans d) in
  let d := Db.set_loans loans' d in
  (Status200 (Db.loans d !! Loan._id loan), d).

(** The handler of [loanRouter.patch('/:id/approve')].  The remark it
    writes on the credit score is not a path of the embedding; the
    [creditScore.save()] is. *)
Definition approve (now id : nat) (d : Db.t) : outcome * Db.t :=
  match Db.loans d !! id with
  | None => (Status404, d)
  | Some loan =>
      if negb (bool_decide (Loan.status loan = Loan.pending)) then (Status400, d)
      else
        let loan := Loan.set_total_paid 0 loan in
        let loan := Loan.set_status Loan.approved loan in
        let '(loan, loans') := Loan.save now loan (Db.loans d) in
        let d := Db.set_loans loans' d in
        let d :=
          match Db.findOne_creditscore (Loan.supplier loan) d with
          | Some creditScore => Db.update_creditscore creditScore d
          | None => d
          end in
        (Status200 (Db.loans d !! Loan._id loan), d)
  end.

(** The handler of [loanRouter.patch('/:id/reject')] *)
Definition reject (now id : nat) (d : Db.t) : outcome * Db.t :=
  match Db.loans d !! id with
  | None => (Status404, d)
  | Some loan =>
      if negb (bool_decide (Loan.status loan = Loan.pending)) then (Status400, d)
      else save_and_send now (Loan.set_status Loan.rejected loan) d
  end.

(** The handler of [loanRouter.patch('/:id/cancel')] *)
Definition cancel (u : auth.user) (now id : nat) (d : Db.t) : outcome * Db.t :=
  match Db.loans d !! id with
  | None => (Status404, d)
  | Some loan =>
      if negb (bool_decide (Loan.status loan = Loan.pending))
         && negb (bool_decide (Loan.status loan = Loan.approved))
      then (Status400, d)
      else
        let own :=
          match findOne_supplier (auth.id u) d with
          | Some supplier => bool_decide (Loan.supplier loan = Supplier._id supplier)
          | None => false
          end in
        if bool_decide (auth.role u = "supplier"%string) && negb own
        then (Status403, d)
        else save_and_send now (Loan.set_status Loan.cancelled loan) d
  end.

(** The handler of [loanRouter.patch('/:id/void')] *)
Definition void (now id : nat) (d : Db.t) : outcome * Db.t :=
  match Db.loans d !! id with
  | None => (Status404, d)
  | Some loan =>
      if negb (bool_decide (Loan.status loan = Loan.pending))
         && negb (bool_decide (Loan.status loan = Loan.approved))
      then (Status400, d)
      else save_and_send now (Loan.set_status Loan.voided loan) d
  end.

(** The routes: [authorize] with the roles of the route, then the
    handler. *)
Definition patch_approve (u : auth.user) (now id : nat) (d : Db.t)
    : auth.guarded outcome * Db.t :=
  auth.behind (auth.authorize ["admin"; "owner"]%string auth.PATCH u) d (approve now id d).

Definition patch_reject (u : auth.user) (now id : nat) (d : Db.t)
    : auth.guarded outcome * Db.t :=
  auth.behind (auth.authorize ["admin"; "owner"]%string auth.PATCH u) d (reject now id d).

Definition patch_cancel (u : auth.user) (now id : nat) (d : Db.t)
    : auth.guarded outcome * Db.t :=
  auth.behind (auth.authorize ["admin"; "owner"; "supplier"]%string auth.PATCH u) d
    (cancel u now id d).

Definition patch_void (u : auth.user) (now id : nat) (d : Db.t)
    : auth.guarded outcome * Db.t :=
  auth.behind (auth.authorize ["admin"]%string auth.PATCH u) d (void now id d).

(** [loanRouter.post('/:id/payments')] behind its [authorize]. *)
Definition post_payments (u : auth.user) (now id : nat) (amount : option Q)
    (payment_method : option LoanPayment.Method) (d : Db.t)
    : auth.guarded (response LoanPayment.t) * Db.t :=
  auth.behind (auth.authorize ["admin"; "owner"]%string auth.POST u) d
    (loanRouter.post_payment now id amount payment_method d).

End loanRouterPatch.

(** ** routes/loanPayment.routes.js: [updateCreditScore] *)
Module loanPaymentScore.

(** [Math.floor((paymentDateObj - dueDate) / (1000 * 60 * 60 * 24))] on
    dates in milliseconds.  [due_date] is a required path of a loan;
    [paymentDate] is the [payment_date] of the request, and without it the
    date is invalid and the difference is not a number ([None]). *)
Definition daysLate (due_date : Z) (paymentDate : option Z) : option Z :=
  match paymentDate with
  | Some paid => Some ((paid - due_date) / (1000 * 60 * 60 * 24))%Z
  | None => None
  end.

(** [paymentRatio >= 0.5] for
    [paymentRatio = payment.amount / loan.total_amount_with_interest]: the
    ratio is not a number without a total, and infinite with the sign of the
    amount on a total of zero. *)
Definition significant (amount : Q) (total_amount_with_interest : option Q) : bool :=
  match total_amount_with_interest with
  | None => false
  | Some total =>
      if Qeq_bool total 0 then JS.gtb amount 0
      else JS.geb (amount / total) 0.5
  end.

(** [scoreAdjustment] *)
Definition scoreAdjustment (loan : Loan.t) (due_date : Z) (payment : LoanPayment.t)
    (paymentDate : option Z) : Q :=
  let scoreAdjustment := 0 in
  let scoreAdjustment :=
    match daysLate due_date paymentDate with
    | Some daysLate =>
        if (0 <? daysLate)%Z
        then scoreAdjustment - JS.Math_min 10 (inject_Z daysLate)
        else scoreAdjustment + 2
    | None => scoreAdjustment + 2
    end in
  if significant (LoanPayment.amount payment) (Loan.total_amount_with_interest loan)
  then scoreAdjustment + 3
  else scoreAdjustment.

(** [updateCreditScore(loan, payment, paymentDate)]: the credit score it
    returns and the collections after [creditScore.save()].  [due_date] is
    [loan.due_date]. *)
Definition updateCreditScore (now : nat) (loan : Loan.t) (due_date : Z)
    (payment : LoanPayment.t) (paymentDate : option Z) (d : Db.t)
    : CreditScore.t * Db.t :=
  let found := Db.findOne_creditscore (Loan.supplier loan) d in
  let creditScore :=
    match found with
    | Some creditScore => creditScore
    | None => CreditScore.defaults (Loan.supplier loan) 50 now
    end in
  let score :=
    JS.Math_min 100
      (Qmax 0 (CreditScore.score creditScore
               + scoreAdjustment loan due_date payment paymentDate)) in
  let creditScore :=
    CreditScore.mk (CreditScore.supplier creditScore) score
      (CreditScore.transaction_consistency creditScore)
      (CreditScore.total_supply_score creditScore)
      (CreditScore.transaction_count_score creditScore)
      (CreditScore.eligible_amount creditScore)
      (CreditScore.transaction_count creditScore)
      (CreditScore.credit_percentage creditScore)
      (CreditScore.average_transaction creditScore) now in
  let d :=
    match found with
    | Some _ => Db.update_creditscore creditScore d
    | None => Db.insert_creditscore creditScore d
    end in
  (CreditScore.pre_save creditScore, d).

End loanPaymentScore.

(** ** models/Payment.js and routes/payment.routes.js *)
Module Payment.

Inductive Kind := cash | bank | credit.

(** The paths of a payment the middleware reads. *)
Record t := mk {
  transaction : nat;
  amount : Q
}.

(** [paymentSchema.pre('save')] of a new payment: the transaction it pays
    is updated and saved.  [None] is [next(new Error(...))]: the payment is
    not saved. *)
Definition pre_save (this : t) (d : Db.t) : option Db.t :=
  match Db.transactions d !! transaction this with
  | None => None
  | Some transaction =>
      let transaction :=
        Transaction.set_paid_amount (Transaction.paid_amount transaction + amount this)
          transaction in
      let transaction :=
        if JS.geb (Transaction.paid_amount transaction) (Transaction.total_amount transaction)
        then Transaction.set_status Transaction.completed transaction
        else Transaction.set_status Transaction.pending transaction in
      Some (transactionRouter.save false transaction d).2
  end.

End Payment.

Module paymentRouter.

(** The paths of the 201 body that are computed from the transaction. *)
Record reply := mk_reply {
  transaction_status : Transaction.Status;
  remaining_balance : Q
}.

Inductive outcome :=
| Status201 (r : reply)
| Status404
| Status500.

(** The handler of [paymentRouter.post('/')].  [amount] and [type] are
    required paths of a payment and [amount] has [min: 0]; a payment that
    fails validation is not saved and its middleware does not run.  The
    payments collection itself is not part of the embedding. *)
Definition post (transaction_id : nat) (amount : option Q) (type : option Payment.Kind)
    (d : Db.t) : outcome * Db.t :=
  match Db.transactions d !! transaction_id with
  | None => (Status404, d)
  | Some transaction =>
      let transaction :=
        if JS.geb (Transaction.paid_amount transaction) (Transaction.total_amount transaction)
        then Transaction.set_status Transaction.completed transaction
        else Transaction.set_status Transaction.pending transaction in
      match amount, type with
      | Some amount, Some _ =>
          if JS.geb amount 0 then
            match Payment.pre_save (Payment.mk transaction_id amount) d with
            | Some d' =>
                (Status201
                   (mk_reply (Transaction.status transaction)
                      (Transaction.total_amount transaction
                       - Transaction.paid_amount transaction)),
                 d')
            | None => (Status500, d)
            end
          else (Status500, d)
      | _, _ => (Status500, d)
      end
  end.

End paymentRouter.

(** ** controllers/loan.controller.js *)
Module loanController.

(** What the controller reads of the result of
    [creditScoreUtils.calculateCreditScoreComponents]. *)
Record creditDetails := mk_creditDetails {
  eligibleAmount : Q;
  isEligible : bool;
  score : Q
}.

Record eligibility := mk_eligibility {
  eligible : bool;
  limit : Q
}.

Section Utils.

(** [lib/utils] is not among the sources: the function is a parameter of
    the controller. *)
Variable calculateCreditScoreComponents : list Transaction.t -> creditDetails.

(** [checkLoanEligibility(supplierId, requestedAmount)] *)
Definition checkLoanEligibility (supplierId : nat) (requestedAmount : Q) (d : Db.t)
    : eligibility :=
  let transactions := Db.find_completed supplierId d in
  let transactionCount := length transactions in
  if (transactionCount =? 0)%nat then mk_eligibility false 0
  else
    match creditScoreRouter.latestScore supplierId d with
    | None =>
        let creditDetails := calculateCreditScoreComponents transactions in
        let loanLimit := eligibleAmount creditDetails in
        mk_eligibility (JS.leb requestedAmount loanLimit && isEligible creditDetails)
          loanLimit
    | Some creditScore =>
        mk_eligibility
          (JS.leb requestedAmount (CreditScore.eligible_amount creditScore)
           && JS.geb (CreditScore.score creditScore) 20)
          (CreditScore.eligible_amount creditScore)
    end.

End Utils.


End loanController.

(** ** models/Loan.js: what the schema stores *)
Module LoanSchema.

(** A loan as the loans collection holds it.  [LoanSchema] declares none
    of [interest_rate], [total_amount_with_interest], [principal_paid] and
    [interest_paid]: [new Loan({...})] drops these keys and [save()] never
    writes them, so a stored loan lacks all four.  A handler or a middleware
    that assigns one of them sets it on the document in memory only. *)
Definition stored (l : Loan.t) : Loan.t :=
  Loan.mk (Loan._id l) (Loan.supplier l) (Loan.amount l) None None (Loan.total_paid l)
    None None (Loan.status l) (Loan.lastPaymentDate l) (Loan.completionDate l)
    (Loan.createdAt l).

End LoanSchema.

(** ** The handlers with the middleware of every [save()]

    The modules above embed each handler and each middleware on its own.
    [App] composes them as Mongoose runs them: [loan.save()] stores the
    paths of the schema, [loanPayment.save()] runs
    [LoanPaymentSchema.post('save')], and [transaction.save()] runs
    [transactionSchema.pre('save')] and [transactionSchema.post('save')]. *)
Module App.

(** [loan.save()] *)
Definition loan_save (now : nat) (this : Loan.t) (loans : gmap nat Loan.t)
    : Loan.t * gmap nat Loan.t :=
  let this' := Loan.pre_save now this in
  (this', <[Loan._id this' := LoanSchema.stored this']> loans).

(** [loanPayment.save()]: the row is stored, then
    [LoanPaymentSchema.post('save')] loads the loan, applies the payment to
    the document and saves it. *)
Definition loanPayment_save (now : nat) (this : LoanPayment.t) (d : Db.t) : Db.t :=
  let d := Db.set_loanpayments (Db.loanpayments d ++ [this]) d in
  match Db.loans d !! LoanPayment.loan this with
  | None => d
  | Some loan =>
      let '(_, loans') :=
        loan_save now (LoanPayment.apply_payment now this loan) (Db.loans d) in
      Db.set_loans loans' d
  end.

(** [for (const loan of outstandingLoans)] of [transactionSchema.post('save')],
    with [loan.save()] and [loanPayment.save()] as above. *)
Fixpoint deduct_loop (now this_id : nat) (outstandingLoans : list Loan.t)
    (st : TransactionHooks.loop_state) : list Loan.t * TransactionHooks.loop_state :=
  match outstandingLoans with
  | [] => ([], st)
  | loan :: rest =>
      if JS.leb (TransactionHooks.remainingDeduction st) 0 then (loan :: rest, st)
      else
        let currentDeduction :=
          JS.Math_min (TransactionHooks.remainingDeduction st)
            (TransactionHooks.loanRemainingAmount loan) in
        if JS.gtb currentDeduction 0 then
          let loanPayment :=
            LoanPayment.mk (Loan._id loan) (Some this_id) currentDeduction
              (Some now) LoanPayment.auto_debit in
          let '(loan', loans') :=
            loan_save now (TransactionHooks.deduct now loan currentDeduction)
              (Db.loans (TransactionHooks.db st)) in
          let d := Db.set_loans loans' (TransactionHooks.db st) in
          let d := loanPayment_save now loanPayment d in
          let st' :=
            TransactionHooks.mk_state
              (TransactionHooks.remainingDeduction st - currentDeduction)
              (TransactionHooks.totalDeduction st + currentDeduction)
              (TransactionHooks.loanPaymentsArray st
                 ++ [Transaction.mk_ref (Loan._id loan) currentDeduction])
              d in
          let '(docs, st'') := deduct_loop now this_id rest st' in
          (loan' :: docs, st'')
        else
          let '(docs, st'') := deduct_loop now this_id rest st in
          (loan :: docs, st'')
  end.

(** The auto-debit half of [transactionSchema.post('save')]. *)
Definition auto_debit (now : nat) (this : Transaction.t) (d : Db.t)
    : Transaction.t * list Loan.t * Db.t :=
  let outstandingLoans :=
    Db.find_loans_oldest_first
      (TransactionHooks.outstanding (Transaction.supplier this)) d in
  if (0 <? length outstandingLoans)%nat then
    let maxDeductionAmount := Transaction.total_amount this * 0.4 in
    let '(docs, st) :=
      deduct_loop now (Transaction._id this) outstandingLoans
        (TransactionHooks.mk_state maxDeductionAmount 0 [] d) in
    let update (x : Transaction.t) : Transaction.t :=
      let x := Transaction.set_loan_deduction (TransactionHooks.totalDeduction st) x in
      let x :=
        Transaction.set_amount_after_deduction
          (Some (Transaction.total_amount this - TransactionHooks.totalDeduction st)) x in
      let x :=
        Transaction.set_paid_amount
          (Transaction.total_amount this - TransactionHooks.totalDeduction st) x in
      Transaction.set_loan_payments (TransactionHooks.loanPaymentsArray st) x in
    (update this, docs,
     Db.set_transactions
       (alter update (Transaction._id this) (Db.transactions (TransactionHooks.db st)))
       (TransactionHooks.db st))
  else
    let update (x : Transaction.t) : Transaction.t :=
      Transaction.set_paid_amount (Transaction.total_amount this)
        (Transaction.set_amount_after_deduction (Some (Transaction.total_amount this)) x) in
    (update this, [],
     Db.set_transactions (alter update (Transaction._id this) (Db.transactions d)) d).

(** [transactionSchema.post('save')]: nothing unless the transaction is
    completed; then the auto-debit, the credit score and the balance of the
    supplier.  The document in memory is the one the caller holds. *)
Definition transaction_post_save (now : nat) (this : Transaction.t) (d : Db.t)
    : Transaction.t * Db.t :=
  if bool_decide (Transaction.status this = Transaction.completed) then
    let '(this', _, d) := auto_debit now this d in
    let d := TransactionHooks.credit_score now this' d in
    let '(_, suppliers') :=
      supplierBalanceUtils.recalculateSupplierBalance
        (Transaction.supplier this') (Db.loans d) (Db.suppliers d) in
    (this', Db.set_suppliers suppliers' d)
  else (this, d).

(** [transaction.save()] *)
Definition transaction_save (now : nat) (isNew : bool) (x : Transaction.t) (d : Db.t)
    : Transaction.t * Db.t :=
  let x' := Transaction.pre_save isNew x in
  let d := Db.set_transactions (<[Transaction._id x' := x']> (Db.transactions d)) d in
  transaction_post_save now x' d.

(** [transactionRouter.post('/')] *)
Definition transactionRouter_post (now new_id : nat) (req : transactionRouter.body)
    (d : Db.t) : response Transaction.t * Db.t :=
  match transactionRouter.supplier req with
  | None => (Failed BadRequest, d)
  | Some supplier =>
    if JS.not_ (transactionRouter.quantity req) || JS.not_ (transactionRouter.unit_price req)
    then (Failed BadRequest, d)
    else
      let total_kilo :=
        JS.or_ (transactionRouter.quantity req) 0
        - JS.or_ (transactionRouter.less_kilo req) 0 in
      let total_price := total_kilo * JS.or_ (transactionRouter.unit_price req) 0 in
      let transaction :=
        Transaction.mk new_id supplier now
          (default Transaction.completed (transactionRouter.status req))
          (JS.or_ (transactionRouter.quantity req) 0)
          (JS.or_ (transactionRouter.less_kilo req) 0) total_kilo
          (JS.or_ (transactionRouter.unit_price req) 0) total_price total_price 0 None 0
          false [] in
      let '(transaction, d) := transaction_save now true transaction d in
      let loans :=
        Db.find_loans_oldest_first (transactionRouter.approved_of supplier) d in
      let '(transaction, d) :=
        match loans with
        | loan :: _ =>
            let remainingLoanAmount := Loan.amount loan - Loan.total_paid loan in
            let deductionAmount := JS.Math_min total_price remainingLoanAmount in
            if JS.gtb deductionAmount 0 then
              let transaction := Transaction.set_loan_deduction deductionAmount transaction in
              let transaction :=
                Transaction.set_amount_after_deduction
                  (Some (total_price - deductionAmount)) transaction in
              let transaction :=
                Transaction.set_paid_amount (total_price - deductionAmount) transaction in
              let transaction :=
                Transaction.set_loan_payments
                  [Transaction.mk_ref (Loan._id loan) deductionAmount] transaction in
              let '(transaction, d) := transaction_save now false transaction d in
              let payment :=
                LoanPayment.mk (Loan._id loan) (Some (Transaction._id transaction))
                  deductionAmount (Some now) LoanPayment.auto_debit in
              let d := loanPayment_save now payment d in
              let loan := Loan.set_total_paid (Loan.total_paid loan + deductionAmount) loan in
              let loan := Loan.set_lastPaymentDate (Some now) loan in
              let loan :=
                if JS.geb (Loan.total_paid loan) (Loan.amount loan)
                then Loan.set_completionDate (Some now) (Loan.set_status Loan.paid loan)
                else loan in
              let '(_, loans') := loan_save now loan (Db.loans d) in
              (transaction, Db.set_loans loans' d)
            else (transaction, d)
        | [] =>
            let transaction := Transaction.set_loan_deduction 0 transaction in
            let transaction :=
              Transaction.set_amount_after_deduction (Some total_price) transaction in
            let transaction := Transaction.set_paid_amount total_price transaction in
            transaction_save now false transaction d
        end in
      match Db.transactions d !! Transaction._id transaction with
      | Some populatedTransaction => (Sent populatedTransaction, d)
      | None => (Failed NotFound, d)
      end
  end.

(** The body of [for (const payment of transaction.loan_payments)] in the
    cancel and the void handler. *)
Definition reverse_payment (now transaction_id : nat) (d : Db.t)
    (payment : Transaction.payment_ref) : Db.t :=
  match Db.loans d !! Transaction.loan payment with
  | Some loan =>
      let loan :=
        Loan.set_total_paid (Loan.total_paid loan - Transaction.amount payment) loan in
      let loan :=
        if bool_decide (Loan.status loan = Loan.paid)
           && JS.ltb (Loan.total_paid loan) (Loan.amount loan)
        then Loan.set_completionDate None (Loan.set_status Loan.approved loan)
        else loan in
      let '(_, loans') := loan_save now loan (Db.loans d) in
      let d := Db.set_loans loans' d in
      Db.set_loanpayments
        (Db.deleteOne_payment transaction_id (Transaction.loan payment) (Db.loanpayments d)) d
  | None => d
  end.


(** [loanRouter.post('/')]: [new Loan({...})] keeps the keys the schema
    declares. *)
Definition loanRouter_post (now new_id : nat) (req : loanRouter.body) (d : Db.t)
    : response Loan.t * Db.t :=
  let eligibility :=
    loanRouter.checkLoanEligibility (loanRouter.supplier_id req) (loanRouter.amount req) d in
  if negb (loanRouter.eligible eligibility) || JS.leb (loanRouter.limit eligibility) 0
  then (Failed BadRequest, d)
  else
    let loan :=
      Loan.mk new_id (loanRouter.supplier_id req) (loanRouter.amount req) None None 0
        None None Loan.pending None None now in
    let '(loan, loans') := loan_save now loan (Db.loans d) in
    let d := Db.set_loans loans' d in
    match Db.loans d !! Loan._id loan with
    | Some populatedLoan => (Sent populatedLoan, d)
    | None => (Failed NotFound, d)
    end.

(** [loanRouter.post('/:id/payments')] *)
Definition loanRouter_post_payments (now id : nat) (amount : option Q)
    (payment_method : option LoanPayment.Method) (d : Db.t)
    : response LoanPayment.t * Db.t :=
  if JS.not_ amount || JS.leb (JS.or_ amount 0) 0 then (Failed BadRequest, d)
  else
    match Db.loans d !! id with
    | None => (Failed NotFound, d)
    | Some loan =>
        if negb (bool_decide (Loan.status loan = Loan.approved))
        then (Failed BadRequest, d)
        else
          let payment :=
            LoanPayment.mk id None (JS.or_ amount 0) (Some now)
              (default LoanPayment.manual payment_method) in
          (Sent payment, loanPayment_save now payment d)
    end.

(** [paymentSchema.pre('save')] of a new payment. *)
Definition payment_pre_save (now : nat) (this : Payment.t) (d : Db.t) : option Db.t :=
  match Db.transactions d !! Payment.transaction this with
  | None => None
  | Some transaction =>
      let transaction :=
        Transaction.set_paid_amount
          (Transaction.paid_amount transaction + Payment.amount this) transaction in
      let transaction :=
        if JS.geb (Transaction.paid_amount transaction) (Transaction.total_amount transaction)
        then Transaction.set_status Transaction.completed transaction
        else Transaction.set_status Transaction.pending transaction in
      Some (transaction_save now false transaction d).2
  end.

(** [paymentRouter.post('/')] *)
Definition paymentRouter_post (now transaction_id : nat) (amount : option Q)
    (type : option Payment.Kind) (d : Db.t) : paymentRouter.outcome * Db.t :=
  match Db.transactions d !! transaction_id with
  | None => (paymentRouter.Status404, d)
  | Some transaction =>
      let transaction :=
        if JS.geb (Transaction.paid_amount transaction) (Transaction.total_amount transaction)
        then Transaction.set_status Transaction.completed transaction
        else Transaction.set_status Transaction.pending transaction in
      match amount, type with
      | Some amount, Some _ =>
          if JS.geb amount 0 then
            match payment_pre_save now (Payment.mk transaction_id amount) d with
            | Some d' =>
                (paymentRouter.Status201
                   (paymentRouter.mk_reply (Transaction.status transaction)
                      (Transaction.total_amount transaction
                       - Transaction.paid_amount transaction)),
                 d')
            | None => (paymentRouter.Status500, d)
            end
          else (paymentRouter.Status500, d)
      | _, _ => (paymentRouter.Status500, d)
      end
  end.

End App.

(** ** Notions the further properties are stated with *)
Module Ledger.

(** The sum of the amounts recorded in [loan_payments]. *)
Definition recorded_total (refs : list Transaction.payment_ref) : Q :=
  fold_right (fun r acc => Transaction.amount r + acc) 0 refs.

(** The LoanPayment row the auto-debit of transaction [this_id] writes for a
    recorded entry. *)
Definition auto_debit_row (now this_id : nat) (r : Transaction.payment_ref)
    : LoanPayment.t :=
  LoanPayment.mk (Transaction.loan r) (Some this_id) (Transaction.amount r)
    (Some now) LoanPayment.auto_debit.

(** Every document of a collection is stored under its own [_id]. *)
Definition loans_keyed (loans : gmap nat Loan.t) : Prop :=
  map_Forall (fun (k : nat) (l : Loan.t) => Loan._id l = k) loans.

#[global] Instance loans_keyed_dec (loans : gmap nat Loan.t) : Decision (loans_keyed loans).
Proof. unfold loans_keyed. apply _. Defined.

(** What one loan adds to the balance [recalculateSupplierBalance] computes
    for a supplier, and the sum of that over a list of loans. *)
Definition owed (supplierId : nat) (l : Loan.t) : Q :=
  if supplierBalanceUtils.matches supplierId l
  then Loan.amount l - Loan.total_paid l
  else 0.

Definition owed_sum (supplierId : nat) (ls : list Loan.t) : Q :=
  fold_right (fun l acc => owed supplierId l + acc) 0 ls.

(** The loans collection as the application leaves it: every loan is
    stored under its own [_id] and with the paths of the schema only. *)
Definition conforming (loans : gmap nat Loan.t) : Prop :=
  map_Forall
    (fun (k : nat) (l : Loan.t) =>
       Loan._id l = k
       /\ Loan.interest_rate l = None
       /\ Loan.total_amount_with_interest l = None
       /\ Loan.principal_paid l = None
       /\ Loan.interest_paid l = None)
    loans.

#[global] Instance conforming_dec (loans : gmap nat Loan.t) : Decision (conforming loans).
Proof. unfold conforming. apply _. Defined.

(** What [transactionSchema.post('save')] writes to a completed transaction
    when the supplier has no outstanding loan: the whole amount is what is
    left after deduction and what is paid out. *)
Definition settled (x : Transaction.t) : Transaction.t :=
  Transaction.set_paid_amount (Transaction.total_amount x)
    (Transaction.set_amount_after_deduction (Some (Transaction.total_amount x)) x).

End Ledger.

(** ** Further sample documents *)
Module Samples.

(** The request that creates a purchase of 500 kilos at 1 a kilo. *)
Definition create_500 : transactionRouter.body :=
  transactionRouter.mk_body (Some 7%nat) (Some 500) None (Some 1) None.

(** The collections with nothing but the plain loan of 1000. *)
Definition one_plain_loan : Db.t := Fixtures.db_of [Fixtures.loan_1000_plain] [].

(** The collections with nothing at all. *)
Definition empty : Db.t := Fixtures.db_of [] [].

(** A request of supplier 7 for 1000 that is still pending, and the
    collections with that loan and the supplier, whose user is 3. *)
Definition loan_pending : Loan.t :=
  Loan.mk 1 7 1000 (Some 10) (Some 1100) 0 (Some 0) (Some 0) Loan.pending None None 1.

Definition supplier_7 : Supplier.t := Supplier.mk 7 3 0 true.

Definition pending_request : Db.t :=
  Db.set_suppliers {[ 7%nat := supplier_7 ]} (Fixtures.db_of [loan_pending] []).

(** The collections with the closed loan of the scenario. *)
Definition closed : Db.t := Fixtures.db_of [Fixtures.loan_closed] [].

(** An administrator, and the user of supplier 7. *)
Definition an_admin : auth.user := auth.mk_user 1 "admin".

Definition user_3 : auth.user := auth.mk_user 3 "supplier".

(** Credit details that do not depend on the transactions. *)
Definition flat_details (_ : list Transaction.t) : loanController.creditDetails :=
  loanController.mk_creditDetails 400 true 50.

(** Supplier 7 with the plain loan of 1000. *)
Definition supplier_with_loan : Db.t :=
  Db.set_suppliers {[ 7%nat := supplier_7 ]} one_plain_loan.

(** Supplier 7 after one completed purchase of 5000 and no loan yet: the
    loan limit is 40 percent of 5000. *)
Definition history : Db.t := Fixtures.db_of [] [Fixtures.purchase 10 5000].

(** The life of a loan of 1000 requested at 10 percent: the request, the
    approval, and a manual payment of 800. *)
Definition loan_requested : Db.t :=
  (App.loanRouter_post 1 1 Fixtures.request_1000 history).2.

Definition loan_approved : Db.t := (loanRouterPatch.approve 2 1 loan_requested).2.

Definition loan_paid_800 : Db.t :=
  (App.loanRouter_post_payments 5 1 (Some 800) None loan_approved).2.

(** Two approved loans of supplier 7 as the loans collection holds them,
    100 created first and 500 created second, nothing paid. *)
Definition stored_100 : Loan.t :=
  Loan.mk 1 7 100 None None 0 None None Loan.approved None None 1.

Definition stored_500 : Loan.t :=
  Loan.mk 2 7 500 None None 0 None None Loan.approved None None 2.

Definition two_stored_loans : Db.t := Fixtures.db_of [stored_100; stored_500] [].




(** A purchase of 2000 of which nothing is paid out yet. *)
Definition unpaid_purchase : Db.t := Fixtures.db_of [] [Fixtures.purchase 10 2000].

End Samples.

(** * Properties *)

(** ** Comparisons and [min]/[max] on numbers *)
Section Numbers.

Lemma leb_iff (x y : Q) : JS.leb x y = true <-> x <= y.
Proof. apply Qle_bool_iff. Qed.

Lemma geb_iff (x y : Q) : JS.geb x y = true <-> y <= x.
Proof. apply Qle_bool_iff. Qed.

Lemma gtb_iff (x y : Q) : JS.gtb x y = true <-> y < x.
Proof.
  unfold JS.gtb. rewrite negb_true_iff, <- not_true_iff_false, Qle_bool_iff.
  split; [apply Qnot_le_lt | apply Qlt_not_le].
Qed.

Lemma ltb_iff (x y : Q) : JS.ltb x y = true <-> x < y.
Proof. apply (gtb_iff y x). Qed.

Lemma leb_false (x y : Q) : JS.leb x y = false <-> y < x.
Proof.
  unfold JS.leb. rewrite <- not_true_iff_false, Qle_bool_iff.
  split; [apply Qnot_le_lt | apply Qlt_not_le].
Qed.

Lemma geb_false (x y : Q) : JS.geb x y = false <-> x < y.
Proof. apply (leb_false y x). Qed.

Lemma gtb_false (x y : Q) : JS.gtb x y = false <-> x <= y.
Proof.
  unfold JS.gtb. rewrite negb_false_iff. apply Qle_bool_iff.
Qed.

Lemma ltb_false (x y : Q) : JS.ltb x y = false <-> y <= x.
Proof. apply (gtb_false y x). Qed.

(** [x || 0] is [x] on numbers and [0] on [undefined]. *)
Lemma or_zero (x : option Q) : JS.or_ x 0 == default 0 x.
Proof.
  destruct x as [q|]; simpl; [|reflexivity].
  destruct (Qeq_bool q 0) eqn:E; [|reflexivity].
  apply Qeq_bool_iff in E. symmetry. exact E.
Qed.

End Numbers.

(** Case analysis on the comparisons of a goal, each case with the order
    fact it stands for. *)
Ltac js_case :=
  match goal with
  | |- context [JS.gtb ?x ?y] =>
      let E := fresh "E" in
      destruct (JS.gtb x y) eqn:E;
      [apply gtb_iff in E | apply gtb_false in E]
  | |- context [JS.geb ?x ?y] =>
      let E := fresh "E" in
      destruct (JS.geb x y) eqn:E;
      [apply geb_iff in E | apply geb_false in E]
  | |- context [JS.leb ?x ?y] =>
      let E := fresh "E" in
      destruct (JS.leb x y) eqn:E;
      [apply leb_iff in E | apply leb_false in E]
  | |- context [JS.ltb ?x ?y] =>
      let E := fresh "E" in
      destruct (JS.ltb x y) eqn:E;
      [apply ltb_iff in E | apply ltb_false in E]
  end.

(** Replace every [Qmin]/[Qmax] of the goal and the hypotheses by a
    variable with its defining order facts. *)
Ltac q_minmax :=
  repeat match goal with
  | |- context [Qmin ?x ?y] =>
      let m := fresh "m" in
      destruct (Q.min_spec x y) as [[? ?]|[? ?]];
      set (m := Qmin x y) in *; clearbody m
  | |- context [Qmax ?x ?y] =>
      let m := fresh "m" in
      destruct (Q.max_spec x y) as [[? ?]|[? ?]];
      set (m := Qmax x y) in *; clearbody m
  | H : context [Qmin ?x ?y] |- _ =>
      let m := fresh "m" in
      destruct (Q.min_spec x y) as [[? ?]|[? ?]];
      set (m := Qmin x y) in *; clearbody m
  | H : context [Qmax ?x ?y] |- _ =>
      let m := fresh "m" in
      destruct (Q.max_spec x y) as [[? ?]|[? ?]];
      set (m := Qmax x y) in *; clearbody m
  end.

(** ** The loan-payment middleware *)
Section ApplyPayment.

Variable now : nat.

Lemma init_fields_id (loan : Loan.t) :
  Loan._id (LoanPayment.init_fields loan) = Loan._id loan.
Proof.
  unfold LoanPayment.init_fields.
  repeat match goal with |- context [if ?b then _ else _] => destruct b end;
    reflexivity.
Qed.

Lemma init_fields_amounts (loan : Loan.t) :
  Loan.amount (LoanPayment.init_fields loan) = Loan.amount loan
  /\ Loan.total_paid (LoanPayment.init_fields loan) = Loan.total_paid loan
  /\ Loan.interest_paid (LoanPayment.init_fields loan)
     = Some (JS.or_ (Loan.interest_paid loan) 0)
  /\ Loan.principal_paid (LoanPayment.init_fields loan)
     = Some (JS.or_ (Loan.principal_paid loan) 0).
Proof.
  unfold LoanPayment.init_fields.
  repeat match goal with |- context [if ?b then _ else _] => destruct b end;
    simpl; auto.
Qed.

Lemma pre_save_amounts (l : Loan.t) :
  Loan._id (Loan.pre_save now l) = Loan._id l
  /\ Loan.amount (Loan.pre_save now l) = Loan.amount l
  /\ Loan.total_paid (Loan.pre_save now l) = Loan.total_paid l
  /\ Loan.interest_paid (Loan.pre_save now l) = Loan.interest_paid l
  /\ Loan.principal_paid (Loan.pre_save now l) = Loan.principal_paid l
  /\ Loan.total_amount_with_interest (Loan.pre_save now l)
     = Loan.total_amount_with_interest l.
Proof.
  unfold Loan.pre_save.
  destruct (_ && _); simpl; auto 10.
Qed.

(** What [apply_payment] does to the three running totals of a loan. *)
Lemma apply_payment_totals (p : LoanPayment.t) (loan : Loan.t) :
  0 < LoanPayment.amount p ->
  let before := LoanPayment.init_fields loan in
  let after := LoanPayment.apply_payment now p loan in
  let interestRemaining :=
    LoanPayment.num (Loan.total_amount_with_interest before) - Loan.amount before
    - LoanPayment.num (Loan.interest_paid before) in
  let interestPortion := Qmin (LoanPayment.amount p) (Qmax interestRemaining 0) in
  let principalPortion := LoanPayment.amount p - interestPortion in
  Loan._id after = Loan._id loan
  /\ Loan.total_paid after == Loan.total_paid before + LoanPayment.amount p
  /\ LoanPayment.num (Loan.interest_paid after)
     == LoanPayment.num (Loan.interest_paid before) + interestPortion
  /\ LoanPayment.num (Loan.principal_paid after)
     == LoanPayment.num (Loan.principal_paid before) + principalPortion.
Proof.
  intros Hpos before after interestRemaining interestPortion principalPortion.
  subst after interestPortion principalPortion interestRemaining.
  unfold LoanPayment.apply_payment. fold before.
  pose proof (init_fields_id loan) as Hid. fold before in Hid.
  generalize dependent before. intros before Hid.
  destruct before as [id sup amt rate tawi tp pp ip st lpd cd ca].
  simpl in *. unfold JS.Math_min.
  repeat (js_case; simpl); (split; [assumption|]);
    (split; [reflexivity|]); unfold LoanPayment.num in *; simpl in *;
    split; q_minmax; lra.
Qed.

(** On the document in memory the middleware keeps the conservation law:
    when the two portions add up to [total_paid] before a payment they do so
    after it. *)
Lemma apply_payment_conserves (p : LoanPayment.t) (loan : Loan.t) :
  0 < LoanPayment.amount p ->
  JS.or_ (Loan.principal_paid loan) 0 + JS.or_ (Loan.interest_paid loan) 0
  == Loan.total_paid loan ->
  let after := LoanPayment.apply_payment now p loan in
  LoanPayment.num (Loan.principal_paid after) + LoanPayment.num (Loan.interest_paid after)
  == Loan.total_paid after.
Proof.
  intros Hpos Hc. cbv zeta.
  destruct (apply_payment_totals p loan Hpos) as (_ & Htp & Hip & Hpp).
  destruct (init_fields_amounts loan) as (Ha & Ht & Hi & Hp).
  cbv zeta in Htp, Hip, Hpp.
  rewrite Ht in Htp. rewrite Ha, Hi in Hip. rewrite Ha, Hi, Hp in Hpp.
  change (LoanPayment.num (Some ?x)) with x in Hip, Hpp.
  rewrite Htp, Hip, Hpp. lra.
Qed.

End ApplyPayment.

(** ** The supplier balance *)
Section Balance.

Lemma fold_left_sum {A} (f : A -> Q) (xs : list A) (a : Q) :
  fold_left (fun acc l => acc + f l) xs a
  == a + fold_right (fun l acc => f l + acc) 0 xs.
Proof.
  revert a. induction xs as [|x xs IH]; intros a; simpl.
  - lra.
  - rewrite IH. lra.
Qed.

Lemma matches_contract (supplierId : nat) (l : Loan.t) :
  supplierBalanceUtils.matches supplierId l
  = bool_decide (Loan.supplier l = supplierId /\ Loan.status l = Loan.approved).
Proof. unfold supplierBalanceUtils.matches. symmetry. apply bool_decide_and. Qed.

End Balance.

(** C10.  [recalculateSupplierBalance] returns the sum of
    [amount - total_paid] over the approved loans of the supplier.  The
    supplier's [current_balance], read back after the call, is that value;
    the other paths of the supplier and the other suppliers are as before.
    A second call on the unchanged loans returns the same balance and
    leaves the suppliers as the first call left them. *)
Theorem recalculate_writes_outstanding_sum
    (supplierId : nat) (loans : gmap nat Loan.t) (suppliers : gmap nat Supplier.t) :
  let r := supplierBalanceUtils.recalculateSupplierBalance supplierId loans suppliers in
  r.1 == Contract.balance supplierId loans
  /\ r.2 !! supplierId = Supplier.set_current_balance r.1 <$> suppliers !! supplierId
  /\ Supplier.current_balance <$> r.2 !! supplierId
     = (fun _ => r.1) <$> suppliers !! supplierId
  /\ Supplier._id <$> r.2 !! supplierId = Supplier._id <$> suppliers !! supplierId
  /\ Supplier.user <$> r.2 !! supplierId = Supplier.user <$> suppliers !! supplierId
  /\ Supplier.is_active <$> r.2 !! supplierId
     = Supplier.is_active <$> suppliers !! supplierId
  /\ (forall k : nat, k <> supplierId -> r.2 !! k = suppliers !! k)
  /\ supplierBalanceUtils.recalculateSupplierBalance supplierId loans r.2 = r.
Proof.
  cbv zeta. unfold supplierBalanceUtils.recalculateSupplierBalance. cbn [fst snd].
  split; [|split; [|split; [|split; [|split; [|split; [|split]]]]]].
  - unfold supplierBalanceUtils.aggregate, Contract.balance.
    rewrite <- (List.filter_ext _ _ (matches_contract supplierId)).
    destruct (List.filter _ _) as [|l ls] eqn:E.
    + reflexivity.
    + rewrite fold_left_sum. lra.
  - rewrite lookup_alter_eq. reflexivity.
  - rewrite lookup_alter_eq. destruct (suppliers !! supplierId); reflexivity.
  - rewrite lookup_alter_eq. destruct (suppliers !! supplierId); reflexivity.
  - rewrite lookup_alter_eq. destruct (suppliers !! supplierId); reflexivity.
  - rewrite lookup_alter_eq. destruct (suppliers !! supplierId); reflexivity.
  - intros k Hk. apply lookup_alter_ne. congruence.
  - f_equal. apply map_eq. intros i.
    destruct (decide (supplierId = i)) as [->|Hne].
    + rewrite !lookup_alter_eq. destruct (suppliers !! i); reflexivity.
    + rewrite !lookup_alter_ne by assumption. reflexivity.
Qed.

(** ** The auto-debit of the transaction middleware *)
Section AutoDebit.

Variable now : nat.

Lemma deduct_total_paid (loan : Loan.t) (c : Q) :
  Loan.total_paid (TransactionHooks.deduct now loan c) = Loan.total_paid loan + c.
Proof.
  unfold TransactionHooks.deduct.
  repeat match goal with |- context [if ?b then _ else _] => destruct b end;
    reflexivity.
Qed.

Lemma pre_save_keeps_paid (l : Loan.t) :
  Loan.status l = Loan.paid -> Loan.status (Loan.pre_save now l) = Loan.paid.
Proof.
  intros H. unfold Loan.pre_save. rewrite H.
  rewrite bool_decide_eq_false_2 by discriminate. exact H.
Qed.

(** The two locals of the loop move in step: what the loop adds to
    [totalDeduction] it takes from [remainingDeduction], which never
    drops below zero. *)
Lemma deduct_loop_budget (this_id : nat) (outstandingLoans : list Loan.t)
    (st : TransactionHooks.loop_state) :
  0 <= TransactionHooks.remainingDeduction st ->
  let st' := (TransactionHooks.deduct_loop now this_id outstandingLoans st).2 in
  TransactionHooks.totalDeduction st' + TransactionHooks.remainingDeduction st'
  == TransactionHooks.totalDeduction st + TransactionHooks.remainingDeduction st
  /\ 0 <= TransactionHooks.remainingDeduction st'.
Proof.
  cbv zeta. revert st.
  induction outstandingLoans as [|loan rest IH]; intros st Hst;
    cbn [TransactionHooks.deduct_loop].
  - split; [reflexivity | assumption].
  - destruct (JS.leb (TransactionHooks.remainingDeduction st) 0) eqn:E0;
      [split; [reflexivity | assumption]|].
    unfold JS.Math_min.
    destruct (JS.gtb (Qmin (TransactionHooks.remainingDeduction st)
                           (TransactionHooks.loanRemainingAmount loan)) 0) eqn:E1.
    + destruct (Loan.save _ _ _) as [loan' loans'].
      match goal with
      | |- context [TransactionHooks.deduct_loop now this_id rest ?s] =>
          specialize (IH s); destruct (TransactionHooks.deduct_loop now this_id rest s)
            as [docs st'']
      end.
      cbn [snd TransactionHooks.remainingDeduction TransactionHooks.totalDeduction] in *.
      assert (Hle : Qmin (TransactionHooks.remainingDeduction st)
                         (TransactionHooks.loanRemainingAmount loan)
                    <= TransactionHooks.remainingDeduction st) by apply Q.le_min_l.
      destruct IH as [IH1 IH2]; [lra|]. split; [lra | assumption].
    + specialize (IH st Hst).
      destruct (TransactionHooks.deduct_loop now this_id rest st) as [docs st''].
      exact IH.
Qed.

(** X1.  The ceiling of the middleware: on a transaction of a non-negative
    amount that carries no deduction yet, the auto-debit deducts at most
    40 percent, and what is left after the deduction is the amount less
    the deduction. *)
Lemma auto_debit_ceiling (this : Transaction.t) (d : Db.t) :
  0 <= Transaction.total_amount this ->
  Transaction.loan_deduction this == 0 ->
  let this' := (TransactionHooks.auto_debit now this d).1.1 in
  Transaction.loan_deduction this' <= Transaction.total_amount this * 0.4
  /\ default 0 (Transaction.amount_after_deduction this')
     == Transaction.total_amount this - Transaction.loan_deduction this'.
Proof.
  intros Hnn H0. cbv zeta. unfold TransactionHooks.auto_debit.
  destruct (0 <? _)%nat.
  - match goal with
    | |- context [TransactionHooks.deduct_loop now ?i ?l ?s] =>
        pose proof (deduct_loop_budget i l s) as Hb;
        destruct (TransactionHooks.deduct_loop now i l s) as [docs st]
    end.
    cbn [fst snd TransactionHooks.remainingDeduction TransactionHooks.totalDeduction
         Transaction.loan_deduction Transaction.amount_after_deduction
         Transaction.set_loan_deduction Transaction.set_amount_after_deduction
         Transaction.set_paid_amount Transaction.set_loan_payments default
         Transaction.total_amount] in *.
    destruct Hb as [Hb1 Hb2]; [lra|]. split; [lra | reflexivity].
  - cbn [fst snd Transaction.loan_deduction Transaction.amount_after_deduction
         Transaction.set_loan_deduction Transaction.set_amount_after_deduction
         Transaction.set_paid_amount Transaction.set_loan_payments default
         Transaction.total_amount].
    unfold id. split; lra.
Qed.

End AutoDebit.

(** ** The reversal of the cancel and void handlers *)
Section Reversal.

Variable now : nat.

(** X11.  One reversal takes the recorded amount from [total_paid] of the loan it
    finds and leaves both portions of the loan as they are. *)
Lemma reverse_payment_effect (transaction_id : nat) (d : Db.t)
    (payment : Transaction.payment_ref) (loan : Loan.t) :
  Db.loans d !! Transaction.loan payment = Some loan ->
  Loan._id loan = Transaction.loan payment ->
  exists reversed : Loan.t,
    Db.loans (transactionRouter.reverse_payment now transaction_id d payment)
      !! Transaction.loan payment = Some reversed
    /\ Loan.total_paid reversed = Loan.total_paid loan - Transaction.amount payment
    /\ Loan.interest_paid reversed = Loan.interest_paid loan
    /\ Loan.principal_paid reversed = Loan.principal_paid loan.
Proof.
  intros Hfind Hkey. unfold transactionRouter.reverse_payment. rewrite Hfind.
  unfold Loan.save.
  match goal with
  | |- context [Loan.pre_save now ?l] =>
      destruct (pre_save_amounts now l) as (Sid & _ & Stp & Sip & Spp & _);
      exists (Loan.pre_save now l);
      assert (Hid : Loan._id l = Loan._id loan)
        by (destruct (_ && _); reflexivity);
      assert (Htp : Loan.total_paid l = Loan.total_paid loan - Transaction.amount payment)
        by (destruct (_ && _); reflexivity);
      assert (Hip : Loan.interest_paid l = Loan.interest_paid loan)
        by (destruct (_ && _); reflexivity);
      assert (Hpp : Loan.principal_paid l = Loan.principal_paid loan)
        by (destruct (_ && _); reflexivity)
  end.
  cbn [Db.loans Db.set_loans Db.set_loanpayments].
  rewrite Sid, Hid, Hkey, lookup_insert_eq, Stp, Sip, Spp, Htp, Hip, Hpp.
  repeat split; reflexivity.
Qed.

(** A completed transaction that is cancelled or voided ends in the target
    status with its deduction, its recorded payments and its paid amount
    cleared. *)
Lemma terminate_clears (target : Transaction.Status) (id : nat) (d : Db.t)
    (transaction : Transaction.t) :
  Db.transactions d !! id = Some transaction ->
  Transaction.status transaction = Transaction.completed ->
  exists ended : Transaction.t,
    (transactionRouter.terminate target now id d).1 = Sent ended
    /\ Transaction.status ended = target
    /\ Transaction.loan_deduction ended = 0
    /\ Transaction.loan_payments ended = []
    /\ Transaction.paid_amount ended = 0.
Proof.
  intros Hfind Hst. unfold transactionRouter.terminate. rewrite Hfind, Hst.
  rewrite bool_decide_eq_true_2 by reflexivity. cbn [negb].
  unfold transactionRouter.save.
  eexists. split; [reflexivity|].
  unfold Transaction.pre_save. cbn [orb].
  destruct (JS.not_ _); repeat split; reflexivity.
Qed.

End Reversal.

(** Closes a goal about concrete documents by evaluation. *)
Ltac by_evaluation :=
  vm_compute;
  repeat match goal with
  | |- _ /\ _ => split
  | |- _ = _ => reflexivity
  | |- _ -> False =>
      let H := fresh "H" in
      intros H; first [discriminate H | apply H; reflexivity | apply H; discriminate]
  end.



(** C6.  The middleware on the second of two completed purchases of 1000:
    the score is [round((100 + 100 + 20) / 3) = 73], the credit percentage
    comes from the score table and is 0.5, and the eligible amount is
    [round(1000 * 0.5) = 500], not [round(1000 * 0.40) = 400]. *)
Theorem tiered_percentage_in_middleware :
  match Db.creditscores
          (TransactionHooks.credit_score 0 (Fixtures.purchase 11 1000)
             (Fixtures.db_of [] [Fixtures.purchase 10 1000; Fixtures.purchase 11 1000])) with
  | [c] =>
      CreditScore.transaction_count c = 2%nat
      /\ CreditScore.transaction_consistency c == 100
      /\ CreditScore.total_supply_score c == 100
      /\ CreditScore.transaction_count_score c == 20
      /\ CreditScore.score c == inject_Z (JS.Math_round ((100 + 100 + 20) / 3))
      /\ CreditScore.score c == 73
      /\ CreditScore.average_transaction c == 1000
      /\ CreditScore.credit_percentage c == 0.5
      /\ CreditScore.eligible_amount c == 500
      /\ ~ CreditScore.credit_percentage c == 0.40
      /\ ~ CreditScore.eligible_amount c
           == inject_Z (JS.Math_round (CreditScore.average_transaction c * 0.40))
  | _ => False
  end.
Proof. by_evaluation. Qed.

(** C7.  The middleware on the first completed purchase, of 500, of a
    supplier without a credit score: the score is 20, but the credit
    percentage is 0.15, the eligible amount is [500 * 0.15 = 75], and the
    three sub-scores keep their schema default 0.  [checkLoanEligibility] on
    the same purchase gives the limit [round(500 * 0.40) = 200] and the
    score 0. *)
Theorem starter_policy_in_middleware :
  match Db.creditscores
          (TransactionHooks.credit_score 0 (Fixtures.purchase 10 500)
             (Fixtures.db_of [] [Fixtures.purchase 10 500])) with
  | [c] =>
      CreditScore.transaction_count c = 1%nat
      /\ CreditScore.score c == 20
      /\ CreditScore.credit_percentage c == 0.15
      /\ CreditScore.eligible_amount c == 75
      /\ CreditScore.transaction_consistency c == 0
      /\ CreditScore.total_supply_score c == 0
      /\ CreditScore.transaction_count_score c == 0
      /\ ~ CreditScore.credit_percentage c == 0.40
      /\ ~ CreditScore.eligible_amount c == inject_Z (JS.Math_round (500 * 0.40))
  | _ => False
  end
  /\ loanRouter.limit
       (loanRouter.checkLoanEligibility 7 0 (Fixtures.db_of [] [Fixtures.purchase 10 500]))
     == 200
  /\ loanRouter.score
       (loanRouter.checkLoanEligibility 7 0 (Fixtures.db_of [] [Fixtures.purchase 10 500]))
     = Some 0.
Proof. by_evaluation. Qed.


(** C9.  A supplier whose only completed purchase is worth 500 has the
    limit 200; a request for 1000 passes the gate and the loan is created
    pending. *)
Theorem loan_above_limit_created :
  let d := Fixtures.db_of [] [Fixtures.purchase 10 500] in
  let eligibility := loanRouter.checkLoanEligibility 7 1000 d in
  loanRouter.eligible eligibility = true
  /\ loanRouter.limit eligibility == 200
  /\ match (loanRouter.post 0 5 Fixtures.request_1000 d).1 with
     | Sent loan =>
         Loan.status loan = Loan.pending
         /\ Loan.amount loan == 1000
         /\ ~ Loan.amount loan <= loanRouter.limit eligibility
     | Failed _ => False
     end.
Proof. by_evaluation. Qed.

(** ** The score computed on read *)
Section ScoreOnRead.

(** The handler that computes a score on read keeps the percentage at 0.40
    for every score: two purchases of 1000 give the score 73 and the
    eligible amount 400. *)
Lemma fixed_percentage_on_read :
  match creditScoreRouter.get_supplier 7
          (Fixtures.db_of [] [Fixtures.purchase 10 1000; Fixtures.purchase 11 1000]) with
  | inr c =>
      creditScoreRouter.score c == 73
      /\ creditScoreRouter.credit_percentage c == 0.40
      /\ creditScoreRouter.eligible_amount c == 400
  | inl _ => False
  end.
Proof. by_evaluation. Qed.

(** The same handler on a single purchase gives the starter scores; its
    amounts are kilos, so a purchase of 50 kilos worth 500 gives the
    eligible amount [round(50 * 0.40) = 20]. *)
Lemma starter_policy_on_read :
  match creditScoreRouter.get_supplier 7
          (Fixtures.db_of [] [Fixtures.purchase_50_kilos 10]) with
  | inr c =>
      creditScoreRouter.transaction_consistency c == 100
      /\ creditScoreRouter.total_supply_score c == 100
      /\ creditScoreRouter.transaction_count_score c == 10
      /\ creditScoreRouter.score c == 20
      /\ creditScoreRouter.credit_percentage c == 0.40
      /\ creditScoreRouter.eligible_amount c == 20
  | inl _ => False
  end.
Proof. by_evaluation. Qed.

End ScoreOnRead.

(** * Further properties of the ledger code *)

(** ** Instances of the lemmas above on the worked scenario *)

Lemma auto_debit_ceiling_witness :
  Transaction.loan_deduction
    (TransactionHooks.auto_debit 0 (Fixtures.purchase 10 2000) Fixtures.scenario).1.1
  <= Transaction.total_amount (Fixtures.purchase 10 2000) * 0.4
  /\ default 0
       (Transaction.amount_after_deduction
          (TransactionHooks.auto_debit 0 (Fixtures.purchase 10 2000) Fixtures.scenario).1.1)
     == Transaction.total_amount (Fixtures.purchase 10 2000)
        - Transaction.loan_deduction
            (TransactionHooks.auto_debit 0 (Fixtures.purchase 10 2000)
               Fixtures.scenario).1.1.
Proof.
  apply (auto_debit_ceiling 0 (Fixtures.purchase 10 2000) Fixtures.scenario).
  - vm_compute. discriminate.
  - reflexivity.
Defined.

Lemma reverse_payment_effect_witness :
  exists reversed : Loan.t,
    Db.loans
      (transactionRouter.reverse_payment 4 10 (Fixtures.db_of [Fixtures.loan_closed] [])
         (Transaction.mk_ref 1 50)) !! 1%nat = Some reversed
    /\ Loan.total_paid reversed = Loan.total_paid Fixtures.loan_closed - 50
    /\ Loan.interest_paid reversed = Loan.interest_paid Fixtures.loan_closed
    /\ Loan.principal_paid reversed = Loan.principal_paid Fixtures.loan_closed.
Proof.
  apply (reverse_payment_effect 4 10 (Fixtures.db_of [Fixtures.loan_closed] [])
           (Transaction.mk_ref 1 50) Fixtures.loan_closed).
  - vm_compute. reflexivity.
  - reflexivity.
Defined.

Lemma terminate_clears_witness :
  exists ended : Transaction.t,
    (transactionRouter.terminate Transaction.cancelled 4 10 Fixtures.scenario).1 = Sent ended
    /\ Transaction.status ended = Transaction.cancelled
    /\ Transaction.loan_deduction ended = 0
    /\ Transaction.loan_payments ended = []
    /\ Transaction.paid_amount ended = 0.
Proof.
  apply (terminate_clears 4 Transaction.cancelled 10 Fixtures.scenario
           (Fixtures.purchase 10 2000)).
  - vm_compute. reflexivity.
  - reflexivity.
Defined.

(** ** The auto-debit loop, loan by loan *)
Section DeductLoop.

Variable now : nat.

Lemma deduct_fields (loan : Loan.t) (c : Q) :
  Loan._id (TransactionHooks.deduct now loan c) = Loan._id loan
  /\ Loan.amount (TransactionHooks.deduct now loan c) = Loan.amount loan
  /\ Loan.total_amount_with_interest (TransactionHooks.deduct now loan c)
     = Loan.total_amount_with_interest loan.
Proof.
  unfold TransactionHooks.deduct.
  repeat match goal with |- context [if ?b then _ else _] => destruct b end;
    repeat split; reflexivity.
Qed.

Lemma saved_fields (loan : Loan.t) (c : Q) :
  let saved := Loan.pre_save now (TransactionHooks.deduct now loan c) in
  Loan._id saved = Loan._id loan
  /\ Loan.total_paid saved = Loan.total_paid loan + c
  /\ Loan.total_due saved = Loan.total_due loan.
Proof.
  cbv zeta.
  destruct (pre_save_amounts now (TransactionHooks.deduct now loan c))
    as (Sid & Sa & Stp & _ & _ & St).
  destruct (deduct_fields loan c) as (Did & Da & Dt).
  unfold Loan.total_due. rewrite Sid, Sa, Stp, St, Did, Da, Dt, deduct_total_paid.
  repeat split; reflexivity.
Qed.

(** What one run of the loop adds to the recorded entries, to the payment
    rows and to [totalDeduction]: the same entries, each of a positive
    amount. *)
Lemma deduct_loop_records (this_id : nat) (outstandingLoans : list Loan.t)
    (st : TransactionHooks.loop_state) :
  exists news : list Transaction.payment_ref,
    let st' := (TransactionHooks.deduct_loop now this_id outstandingLoans st).2 in
    TransactionHooks.loanPaymentsArray st' = TransactionHooks.loanPaymentsArray st ++ news
    /\ Db.loanpayments (TransactionHooks.db st')
       = Db.loanpayments (TransactionHooks.db st)
         ++ map (Ledger.auto_debit_row now this_id) news
    /\ TransactionHooks.totalDeduction st'
       == TransactionHooks.totalDeduction st + Ledger.recorded_total news
    /\ Forall (fun r => 0 < Transaction.amount r) news
    /\ Db.transactions (TransactionHooks.db st') = Db.transactions (TransactionHooks.db st)
    /\ Db.creditscores (TransactionHooks.db st') = Db.creditscores (TransactionHooks.db st)
    /\ Db.suppliers (TransactionHooks.db st') = Db.suppliers (TransactionHooks.db st).
Proof.
  revert st. induction outstandingLoans as [|loan rest IH]; intros st;
    cbn [TransactionHooks.deduct_loop].
  - exists []. cbn [snd map Ledger.recorded_total fold_right].
    rewrite !app_nil_r. repeat split; [lra | constructor].
  - destruct (JS.leb (TransactionHooks.remainingDeduction st) 0) eqn:E0.
    { exists []. cbn [snd map Ledger.recorded_total fold_right].
      rewrite !app_nil_r. repeat split; [lra | constructor]. }
    destruct (JS.gtb (JS.Math_min (TransactionHooks.remainingDeduction st)
                        (TransactionHooks.loanRemainingAmount loan)) 0) eqn:E1.
    + apply gtb_iff in E1. unfold Loan.save.
      match goal with
      | |- context [TransactionHooks.deduct_loop now this_id rest ?s] =>
          destruct (IH s) as (news & H1 & H2 & H3 & H4 & H5 & H6 & H7);
          destruct (TransactionHooks.deduct_loop now this_id rest s) as [docs st'']
      end.
      cbn [snd TransactionHooks.loanPaymentsArray TransactionHooks.db
           TransactionHooks.totalDeduction Db.loanpayments Db.set_loanpayments
           Db.set_loans Db.transactions Db.creditscores Db.suppliers] in *.
      eexists (_ :: news).
      rewrite H1, H2, <- !app_assoc. unfold Ledger.recorded_total in *.
      cbn [app map fold_right].
      repeat split; try assumption.
      * cbn [Transaction.amount]. lra.
      * constructor; [exact E1 | assumption].
    + destruct (IH st) as (news & H).
      destruct (TransactionHooks.deduct_loop now this_id rest st) as [docs st''].
      exists news. exact H.
Qed.

End DeductLoop.

(** X2.  The deduction a new completed transaction carries after the auto-debit
    is the sum of the entries recorded in its [loan_payments], every entry
    is of a positive amount, and [paid_amount] is what is left after the
    deduction. *)
Theorem auto_debit_records_deductions (now : nat) (this : Transaction.t) (d : Db.t) :
  Transaction.loan_payments this = [] ->
  Transaction.loan_deduction this == 0 ->
  let this' := (TransactionHooks.auto_debit now this d).1.1 in
  Transaction.loan_deduction this' == Ledger.recorded_total (Transaction.loan_payments this')
  /\ Forall (fun r => 0 < Transaction.amount r) (Transaction.loan_payments this')
  /\ Transaction.paid_amount this' == default 0 (Transaction.amount_after_deduction this').
Proof.
  intros Hp H0. cbv zeta. unfold TransactionHooks.auto_debit.
  destruct (0 <? _)%nat.
  - match goal with
    | |- context [TransactionHooks.deduct_loop now ?i ?l ?s] =>
        destruct (deduct_loop_records now i l s) as (news & H1 & _ & H3 & H4 & _);
        destruct (TransactionHooks.deduct_loop now i l s) as [docs st]
    end.
    cbn [fst snd TransactionHooks.loanPaymentsArray TransactionHooks.totalDeduction
         Transaction.loan_deduction Transaction.loan_payments Transaction.paid_amount
         Transaction.amount_after_deduction Transaction.set_loan_deduction
         Transaction.set_amount_after_deduction Transaction.set_paid_amount
         Transaction.set_loan_payments default app] in *.
    rewrite H1. unfold id. split; [lra | split; [assumption | reflexivity]].
  - cbn [fst snd Transaction.loan_deduction Transaction.loan_payments
         Transaction.paid_amount Transaction.amount_after_deduction
         Transaction.set_amount_after_deduction Transaction.set_paid_amount default].
    rewrite Hp. unfold id. split; [exact H0 | split; [constructor | reflexivity]].
Qed.

Lemma auto_debit_records_deductions_witness :
  Transaction.loan_deduction
    (TransactionHooks.auto_debit 0 (Fixtures.purchase 10 2000) Fixtures.scenario).1.1
  == Ledger.recorded_total
       (Transaction.loan_payments
          (TransactionHooks.auto_debit 0 (Fixtures.purchase 10 2000) Fixtures.scenario).1.1)
  /\ Forall (fun r => 0 < Transaction.amount r)
       (Transaction.loan_payments
          (TransactionHooks.auto_debit 0 (Fixtures.purchase 10 2000) Fixtures.scenario).1.1)
  /\ Transaction.paid_amount
       (TransactionHooks.auto_debit 0 (Fixtures.purchase 10 2000) Fixtures.scenario).1.1
     == default 0
          (Transaction.amount_after_deduction
             (TransactionHooks.auto_debit 0 (Fixtures.purchase 10 2000)
                Fixtures.scenario).1.1).
Proof.
  apply (auto_debit_records_deductions 0 (Fixtures.purchase 10 2000) Fixtures.scenario).
  - reflexivity.
  - reflexivity.
Defined.

(** X3.  For every entry the auto-debit of a new transaction records it appends
    exactly one LoanPayment row, in the same order, for the same loan and
    amount, tied to the transaction and marked auto-debit; it writes no
    other row. *)
Theorem auto_debit_payment_rows (now : nat) (this : Transaction.t) (d : Db.t) :
  Transaction.loan_payments this = [] ->
  let r := TransactionHooks.auto_debit now this d in
  Db.loanpayments r.2
  = Db.loanpayments d
    ++ map (Ledger.auto_debit_row now (Transaction._id this))
         (Transaction.loan_payments r.1.1).
Proof.
  intros Hp. cbv zeta. unfold TransactionHooks.auto_debit.
  destruct (0 <? _)%nat.
  - match goal with
    | |- context [TransactionHooks.deduct_loop now ?i ?l ?s] =>
        destruct (deduct_loop_records now i l s) as (news & H1 & H2 & _);
        destruct (TransactionHooks.deduct_loop now i l s) as [docs st]
    end.
    cbn [fst snd TransactionHooks.loanPaymentsArray TransactionHooks.db
         Transaction.loan_payments Transaction.set_loan_payments
         Db.loanpayments Db.set_transactions app] in *.
    rewrite H2, H1. reflexivity.
  - cbn [fst snd Transaction.loan_payments Transaction.set_amount_after_deduction
         Transaction.set_paid_amount Db.loanpayments Db.set_transactions].
    rewrite Hp. cbn [map]. rewrite app_nil_r. reflexivity.
Qed.

Lemma auto_debit_payment_rows_witness :
  Db.loanpayments
    (TransactionHooks.auto_debit 0 (Fixtures.purchase 10 2000) Fixtures.scenario).2
  = Db.loanpayments Fixtures.scenario
    ++ map (Ledger.auto_debit_row 0 (Transaction._id (Fixtures.purchase 10 2000)))
         (Transaction.loan_payments
            (TransactionHooks.auto_debit 0 (Fixtures.purchase 10 2000)
               Fixtures.scenario).1.1).
Proof.
  apply (auto_debit_payment_rows 0 (Fixtures.purchase 10 2000) Fixtures.scenario).
  reflexivity.
Defined.

(** X5.  The update of one loan by the auto-debit keeps the conservation law:
    when the two portions add up to [total_paid] before, they do after,
    whatever the deduction. *)
Theorem deduct_conserves (now : nat) (loan : Loan.t) (currentDeduction : Q) :
  JS.or_ (Loan.principal_paid loan) 0 + JS.or_ (Loan.interest_paid loan) 0
  == Loan.total_paid loan ->
  let after := TransactionHooks.deduct now loan currentDeduction in
  default 0 (Loan.principal_paid after) + default 0 (Loan.interest_paid after)
  == Loan.total_paid after.
Proof.
  intros Hc. cbv zeta. unfold TransactionHooks.deduct.
  pose proof (or_zero (Loan.interest_paid loan)) as Hi.
  destruct loan as [lid sup amt rate tawi tp pp ip st lpd cd ca].
  unfold Loan.total_due, JS.Math_min. simpl in *.
  repeat (js_case; simpl); unfold id in *; q_minmax; lra.
Qed.

Lemma deduct_conserves_witness :
  default 0 (Loan.principal_paid (TransactionHooks.deduct 0 Fixtures.loan_1000 800))
  + default 0 (Loan.interest_paid (TransactionHooks.deduct 0 Fixtures.loan_1000 800))
  == Loan.total_paid (TransactionHooks.deduct 0 Fixtures.loan_1000 800).
Proof.
  apply (deduct_conserves 0 Fixtures.loan_1000 800).
  vm_compute. reflexivity.
Defined.

(** ** Saving a loan *)

(** X9.  [LoanSchema.pre('save')] changes nothing but the status and the
    completion date, a second save changes nothing more, and the loan is
    paid after a save exactly when it was paid before or was approved with
    [total_paid] at or above [amount]. *)
Theorem pre_save_closes_once (now now' : nat) (l : Loan.t) :
  Loan.pre_save now' (Loan.pre_save now l) = Loan.pre_save now l
  /\ (Loan.status (Loan.pre_save now l) = Loan.paid
      <-> Loan.status l = Loan.paid
          \/ (Loan.status l = Loan.approved /\ Loan.amount l <= Loan.total_paid l))
  /\ Loan.set_completionDate (Loan.completionDate l)
       (Loan.set_status (Loan.status l) (Loan.pre_save now l)) = l.
Proof.
  unfold Loan.pre_save.
  destruct (bool_decide (Loan.status l = Loan.approved)) eqn:Ea;
    [apply bool_decide_eq_true in Ea | apply bool_decide_eq_false in Ea];
    cbn [andb].
  - destruct (JS.geb (Loan.total_paid l) (Loan.amount l)) eqn:Eg;
      [apply geb_iff in Eg | apply geb_false in Eg].
    + cbn [Loan.status Loan.set_status Loan.set_completionDate].
      rewrite bool_decide_eq_false_2 by discriminate. cbn [andb].
      split; [reflexivity|]. split; [|destruct l; reflexivity].
      split; [intros _; right; split; assumption | reflexivity].
    + rewrite bool_decide_eq_true_2 by assumption. cbn [andb].
      apply geb_false in Eg. rewrite Eg.
      split; [reflexivity|]. split; [|destruct l; reflexivity].
      apply geb_false in Eg.
      split; [intros H; left; exact H | intros [H|[_ H]]; [exact H | lra]].
  - rewrite bool_decide_eq_false_2 by assumption. cbn [andb].
    split; [reflexivity|]. split; [|destruct l; reflexivity].
    split; [intros H; left; exact H | intros [H|[H _]]; [exact H | contradiction]].
Qed.

(** ** The loan-payment middleware on the loans collection *)

Lemma apply_payment_totals_id (now : nat) (p : LoanPayment.t) (loan : Loan.t) :
  Loan._id (LoanPayment.apply_payment now p loan) = Loan._id loan.
Proof.
  unfold LoanPayment.apply_payment.
  rewrite <- (init_fields_id loan).
  repeat match goal with |- context [if ?b then _ else _] => destruct b end;
    reflexivity.
Qed.


(** X7.  On a collection whose loans are stored under their own [_id] the
    middleware changes no loan but the one the payment names, keeps the
    collection keyed that way, and changes nothing at all when that loan
    is missing. *)
Theorem post_save_touches_one_loan (now : nat) (p : LoanPayment.t)
    (loans : gmap nat Loan.t) :
  Ledger.loans_keyed loans ->
  (forall k : nat, k <> LoanPayment.loan p ->
     LoanPayment.post_save now p loans !! k = loans !! k)
  /\ (loans !! LoanPayment.loan p = None -> LoanPayment.post_save now p loans = loans)
  /\ Ledger.loans_keyed (LoanPayment.post_save now p loans).
Proof.
  intros Hk. unfold LoanPayment.post_save.
  destruct (loans !! LoanPayment.loan p) as [l|] eqn:Hl.
  - assert (Hid : Loan._id (Loan.pre_save now (LoanPayment.apply_payment now p l))
                  = LoanPayment.loan p).
    { destruct (pre_save_amounts now (LoanPayment.apply_payment now p l)) as (-> & _).
      rewrite (apply_payment_totals_id now p l). exact (Hk _ _ Hl). }
    unfold Loan.save. cbn [snd]. rewrite Hid.
    split; [|split].
    + intros k Hne. apply lookup_insert_ne. congruence.
    + discriminate.
    + apply map_Forall_insert_2; assumption.
  - split; [reflexivity|]. split; [reflexivity | assumption].
Qed.

Lemma post_save_touches_one_loan_witness :
  (forall k : nat, k <> LoanPayment.loan Fixtures.payment_800 ->
     LoanPayment.post_save 9 Fixtures.payment_800 (Fixtures.one_loan Fixtures.loan_1000) !! k
     = Fixtures.one_loan Fixtures.loan_1000 !! k)
  /\ (Fixtures.one_loan Fixtures.loan_1000 !! LoanPayment.loan Fixtures.payment_800 = None ->
      LoanPayment.post_save 9 Fixtures.payment_800 (Fixtures.one_loan Fixtures.loan_1000)
      = Fixtures.one_loan Fixtures.loan_1000)
  /\ Ledger.loans_keyed
       (LoanPayment.post_save 9 Fixtures.payment_800 (Fixtures.one_loan Fixtures.loan_1000)).
Proof.
  apply (post_save_touches_one_loan 9 Fixtures.payment_800
           (Fixtures.one_loan Fixtures.loan_1000)).
  apply (bool_decide_unpack _). vm_compute. reflexivity.
Defined.

(** ** Cancelling and voiding, as operations on the collections *)
Section Terminate.

Variable now : nat.

Lemma transaction_pre_save_later (x : Transaction.t) :
  Transaction._id (Transaction.pre_save false x) = Transaction._id x
  /\ Transaction.status (Transaction.pre_save false x) = Transaction.status x.
Proof.
  unfold Transaction.pre_save. cbn [orb]. destruct (JS.not_ _); split; reflexivity.
Qed.

Lemma reverse_payment_frame (transaction_id : nat) (d : Db.t)
    (payment : Transaction.payment_ref) :
  let d' := transactionRouter.reverse_payment now transaction_id d payment in
  Db.transactions d' = Db.transactions d
  /\ Db.suppliers d' = Db.suppliers d
  /\ Db.creditscores d' = Db.creditscores d.
Proof.
  cbv zeta. unfold transactionRouter.reverse_payment.
  destruct (Db.loans d !! Transaction.loan payment); repeat split; reflexivity.
Qed.

Lemma reverse_all_frame (transaction_id : nat)
    (payments : list Transaction.payment_ref) (d : Db.t) :
  let d' := fold_left (transactionRouter.reverse_payment now transaction_id) payments d in
  Db.transactions d' = Db.transactions d
  /\ Db.suppliers d' = Db.suppliers d
  /\ Db.creditscores d' = Db.creditscores d.
Proof.
  cbv zeta. revert d. induction payments as [|p ps IH]; intros d; cbn [fold_left].
  - repeat split; reflexivity.
  - destruct (IH (transactionRouter.reverse_payment now transaction_id d p))
      as (H1 & H2 & H3).
    destruct (reverse_payment_frame transaction_id d p) as (F1 & F2 & F3).
    cbv zeta in F1, F2, F3. rewrite H1, H2, H3, F1, F2, F3. repeat split; reflexivity.
Qed.

End Terminate.

(** X12.  A transaction is cancelled or voided at most once: after either handler
    has gone through on a completed transaction, both handlers answer 400
    on it and change nothing. *)
Theorem reversal_only_once (target target' : Transaction.Status) (now now' id : nat)
    (d : Db.t) (transaction : Transaction.t) :
  Db.transactions d !! id = Some transaction ->
  Transaction._id transaction = id ->
  Transaction.status transaction = Transaction.completed ->
  target = Transaction.cancelled \/ target = Transaction.voided ->
  let d1 := (transactionRouter.terminate target now id d).2 in
  transactionRouter.terminate target' now' id d1 = (Failed BadRequest, d1).
Proof.
  intros Hfind Hid Hst Htarget. cbv zeta.
  assert (Hstored : exists ended : Transaction.t,
             Db.transactions (transactionRouter.terminate target now id d).2 !! id
             = Some ended /\ Transaction.status ended = target).
  { unfold transactionRouter.terminate. rewrite Hfind, Hst.
    rewrite bool_decide_eq_true_2 by reflexivity. cbn [negb].
    unfold transactionRouter.save.
    match goal with
    | |- context [Transaction.pre_save false ?x] =>
        destruct (transaction_pre_save_later x) as (Pid & Pst);
        exists (Transaction.pre_save false x)
    end.
    cbn [snd Db.transactions Db.set_transactions].
    rewrite Pid, Pst. cbn [Transaction._id Transaction.status Transaction.set_status
      Transaction.set_loan_deduction Transaction.set_loan_payments
      Transaction.set_paid_amount].
    rewrite Hid, lookup_insert_eq. split; reflexivity. }
  destruct Hstored as (ended & Hl & He).
  unfold transactionRouter.terminate at 1. rewrite Hl, He.
  rewrite bool_decide_eq_false_2 by (destruct Htarget; subst; discriminate).
  reflexivity.
Qed.

Lemma reversal_only_once_witness :
  transactionRouter.terminate Transaction.voided 5 10
    (transactionRouter.terminate Transaction.cancelled 4 10 Fixtures.scenario_debited).2
  = (Failed BadRequest,
     (transactionRouter.terminate Transaction.cancelled 4 10 Fixtures.scenario_debited).2).
Proof.
  destruct (Db.transactions Fixtures.scenario_debited !! 10%nat) as [transaction|] eqn:E.
  - apply (reversal_only_once Transaction.cancelled Transaction.voided 4 5 10
             Fixtures.scenario_debited transaction).
    + exact E.
    + vm_compute in E. injection E as <-. reflexivity.
    + vm_compute in E. injection E as <-. reflexivity.
    + left. reflexivity.
  - vm_compute in E. discriminate E.
Defined.

(** X13.  Neither handler recomputes anything: whatever the transaction and
    whatever the outcome, the suppliers (so every [current_balance]) and the
    credit scores are as they were. *)
Theorem reversal_leaves_balance_and_scores (target : Transaction.Status) (now id : nat)
    (d : Db.t) :
  let d' := (transactionRouter.terminate target now id d).2 in
  Db.suppliers d' = Db.suppliers d /\ Db.creditscores d' = Db.creditscores d.
Proof.
  cbv zeta. unfold transactionRouter.terminate.
  destruct (Db.transactions d !! id) as [transaction|]; [|split; reflexivity].
  destruct (negb _); [split; reflexivity|].
  unfold transactionRouter.save. cbn [snd Db.suppliers Db.creditscores Db.set_transactions].
  destruct (_ && _); [|split; reflexivity].
  destruct (reverse_all_frame now (Transaction._id transaction)
              (Transaction.loan_payments transaction) d) as (_ & H2 & H3).
  split; assumption.
Qed.

(** ** The loan request gate *)

(** X18.  A supplier without a completed transaction gets no loan, whatever the
    request: the handler answers 400 and stores nothing. *)
Theorem loan_needs_history (now new_id : nat) (req : loanRouter.body) (d : Db.t) :
  Db.find_completed (loanRouter.supplier_id req) d = [] ->
  loanRouter.post now new_id req d = (Failed BadRequest, d).
Proof.
  intros Hnone. unfold loanRouter.post, loanRouter.checkLoanEligibility.
  rewrite Hnone. reflexivity.
Qed.

Lemma loan_needs_history_witness :
  loanRouter.post 0 5 Fixtures.request_1000 Samples.empty = (Failed BadRequest, Samples.empty).
Proof.
  apply (loan_needs_history 0 5 Fixtures.request_1000 Samples.empty).
  vm_compute. reflexivity.
Defined.

(** ** Manual payments *)

(** The manual-payment handler itself never changes a loan: when it
    accepts, it appends the one payment it sends back, for the loan asked
    for and of a positive amount; when it refuses, nothing changes. *)
Theorem post_payment_stores_one_row (now id : nat) (amount : option Q)
    (payment_method : option LoanPayment.Method) (d : Db.t) :
  let r := loanRouter.post_payment now id amount payment_method d in
  Db.loans r.2 = Db.loans d
  /\ match r.1 with
     | Sent payment =>
         Db.loanpayments r.2 = Db.loanpayments d ++ [payment]
         /\ LoanPayment.loan payment = id
         /\ 0 < LoanPayment.amount payment
         /\ (exists loan : Loan.t,
               Db.loans d !! id = Some loan /\ Loan.status loan = Loan.approved)
     | Failed _ => r.2 = d
     end.
Proof.
  cbv zeta. unfold loanRouter.post_payment.
  destruct (JS.not_ amount) eqn:En; cbn [orb fst snd]; [split; reflexivity|].
  destruct (JS.leb (JS.or_ amount 0) 0) eqn:El; cbn [fst snd]; [split; reflexivity|].
  destruct (Db.loans d !! id) as [loan|] eqn:Hl; cbn [fst snd]; [|split; reflexivity].
  destruct (bool_decide (Loan.status loan = Loan.approved)) eqn:Ea;
    cbn [negb fst snd]; [|split; reflexivity].
  apply bool_decide_eq_true in Ea. apply leb_false in El.
  split; [reflexivity|]. cbn [Db.loanpayments Db.set_loanpayments LoanPayment.loan
    LoanPayment.amount].
  split; [reflexivity|]. split; [reflexivity|]. split; [exact El|].
  exists loan. split; [reflexivity | exact Ea].
Qed.

Lemma apply_payment_closes (now : nat) (p : LoanPayment.t) (loan : Loan.t) :
  LoanPayment.num (Loan.total_amount_with_interest (LoanPayment.init_fields loan))
  <= Loan.total_paid loan + LoanPayment.amount p ->
  Loan.status (LoanPayment.apply_payment now p loan) = Loan.paid.
Proof.
  intros H. unfold LoanPayment.apply_payment.
  destruct (init_fields_amounts loan) as (Ha & Ht & _).
  set (l0 := LoanPayment.init_fields loan) in *.
  cbn [Loan.total_paid Loan.set_total_paid Loan.total_amount_with_interest
       Loan.amount Loan.interest_paid Loan.principal_paid].
  set (loan2 := if JS.gtb _ 0 then _ else _).
  assert (H2 : Loan.total_paid loan2 = Loan.total_paid l0 + LoanPayment.amount p
               /\ Loan.total_amount_with_interest loan2
                  = Loan.total_amount_with_interest l0).
  { unfold loan2. destruct (JS.gtb _ 0); [destruct (JS.gtb _ 0)|];
      split; reflexivity. }
  destruct H2 as [H2 H3]. rewrite H2, H3, Ht.
  apply geb_iff in H. rewrite H. reflexivity.
Qed.

(** X20.  A manual payment that brings [total_paid] to
    [total_amount_with_interest] closes the loan: after the handler and the
    loan-payment middleware the loan is stored as paid, and the handler
    refuses every further payment on it with 400. *)
Theorem paid_off_loan_takes_no_payment (now later id : nat) (a : Q)
    (payment_method : option LoanPayment.Method) (amount' : option Q)
    (payment_method' : option LoanPayment.Method) (d : Db.t) (loan : Loan.t) :
  Db.loans d !! id = Some loan ->
  Loan._id loan = id ->
  Loan.status loan = Loan.approved ->
  0 < a ->
  LoanPayment.num (Loan.total_amount_with_interest (LoanPayment.init_fields loan))
  <= Loan.total_paid loan + a ->
  exists payment : LoanPayment.t,
    (loanRouter.post_payment now id (Some a) payment_method d).1 = Sent payment
    /\ let d1 := (loanRouter.post_payment now id (Some a) payment_method d).2 in
       let d2 := Db.set_loans (LoanPayment.post_save now payment (Db.loans d1)) d1 in
       (exists closed : Loan.t,
          Db.loans d2 !! id = Some closed /\ Loan.status closed = Loan.paid)
       /\ loanRouter.post_payment later id amount' payment_method' d2
          = (Failed BadRequest, d2).
Proof.
  intros Hfind Hid Happroved Hpos Hfull.
  assert (Hor : JS.or_ (Some a) 0 = a).
  { cbn [JS.or_]. destruct (Qeq_bool a 0) eqn:E; [|reflexivity].
    apply Qeq_bool_iff in E. lra. }
  assert (Hnot : JS.not_ (Some a) = false).
  { cbn [JS.not_]. destruct (Qeq_bool a 0) eqn:E; [|reflexivity].
    apply Qeq_bool_iff in E. lra. }
  unfold loanRouter.post_payment at 1 2.
  rewrite Hnot, Hor. apply leb_false in Hpos. rewrite Hpos. cbn [orb].
  rewrite Hfind, Happroved. rewrite bool_decide_eq_true_2 by reflexivity.
  cbn [negb fst snd].
  eexists. split; [reflexivity|]. cbv zeta.
  unfold LoanPayment.post_save.
  cbn [LoanPayment.loan Db.loans Db.set_loanpayments]. rewrite Hfind.
  unfold Loan.save. cbn [snd].
  set (p := LoanPayment.mk id None a (Some now) (default LoanPayment.manual payment_method)).
  assert (Hst : Loan.status (Loan.pre_save now (LoanPayment.apply_payment now p loan))
                = Loan.paid).
  { apply pre_save_keeps_paid, apply_payment_closes. exact Hfull. }
  assert (Hkey : Loan._id (Loan.pre_save now (LoanPayment.apply_payment now p loan)) = id).
  { destruct (pre_save_amounts now (LoanPayment.apply_payment now p loan)) as (-> & _).
    rewrite apply_payment_totals_id. exact Hid. }
  rewrite Hkey. cbn [Db.loans Db.set_loans].
  split.
  - eexists. split; [apply lookup_insert_eq | exact Hst].
  - unfold loanRouter.post_payment.
    destruct (JS.not_ amount' || JS.leb (JS.or_ amount' 0) 0); [reflexivity|].
    cbn [Db.loans Db.set_loans]. rewrite lookup_insert_eq, Hst.
    rewrite bool_decide_eq_false_2 by discriminate. reflexivity.
Qed.

Lemma paid_off_loan_takes_no_payment_witness :
  exists payment : LoanPayment.t,
    (loanRouter.post_payment 3 1 (Some 1100) None Fixtures.scenario).1 = Sent payment
    /\ (exists closed : Loan.t,
          Db.loans
            (Db.set_loans
               (LoanPayment.post_save 3 payment
                  (Db.loans (loanRouter.post_payment 3 1 (Some 1100) None Fixtures.scenario).2))
               (loanRouter.post_payment 3 1 (Some 1100) None Fixtures.scenario).2)
            !! 1%nat = Some closed
          /\ Loan.status closed = Loan.paid)
       /\ loanRouter.post_payment 4 1 (Some 5) None
            (Db.set_loans
               (LoanPayment.post_save 3 payment
                  (Db.loans (loanRouter.post_payment 3 1 (Some 1100) None Fixtures.scenario).2))
               (loanRouter.post_payment 3 1 (Some 1100) None Fixtures.scenario).2)
          = (Failed BadRequest,
             Db.set_loans
               (LoanPayment.post_save 3 payment
                  (Db.loans (loanRouter.post_payment 3 1 (Some 1100) None Fixtures.scenario).2))
               (loanRouter.post_payment 3 1 (Some 1100) None Fixtures.scenario).2).
Proof.
  apply (paid_off_loan_takes_no_payment 3 4 1 1100 None (Some 5) None Fixtures.scenario
           Fixtures.loan_1000).
  - vm_compute. reflexivity.
  - reflexivity.
  - reflexivity.
  - reflexivity.
  - vm_compute. discriminate.
Defined.

(** ** The credit score of the transaction middleware *)

(** X26.  The tiered percentage never falls when the score rises, stays within
    [0, 0.6], and is zero exactly below a score of 20. *)
Theorem creditPercentage_monotone (a b : Q) :
  a <= b ->
  TransactionHooks.creditPercentage_of a <= TransactionHooks.creditPercentage_of b
  /\ 0 <= TransactionHooks.creditPercentage_of a <= 0.6
  /\ (TransactionHooks.creditPercentage_of a == 0 <-> a < 20).
Proof.
  intros Hab. unfold TransactionHooks.creditPercentage_of.
  repeat js_case; repeat split; try lra; intros; try lra.
Qed.

Lemma creditPercentage_monotone_witness :
  TransactionHooks.creditPercentage_of 35 <= TransactionHooks.creditPercentage_of 60
  /\ 0 <= TransactionHooks.creditPercentage_of 35 <= 0.6
  /\ (TransactionHooks.creditPercentage_of 35 == 0 <-> 35 < 20).
Proof.
  apply (creditPercentage_monotone 35 60). vm_compute. discriminate.
Defined.

Section Scores.












End Scores.




(** ** The status routes of a loan *)

(** X21.  A loan that is neither pending nor approved is closed for good: the
    approve, reject, cancel and void handlers and the manual-payment
    handler all answer 400 and change nothing. *)
Theorem closed_loan_stays_closed (u : auth.user) (now id : nat) (amount : option Q)
    (payment_method : option LoanPayment.Method) (d : Db.t) (loan : Loan.t) :
  Db.loans d !! id = Some loan ->
  Loan.status loan <> Loan.pending ->
  Loan.status loan <> Loan.approved ->
  loanRouterPatch.approve now id d = (loanRouterPatch.Status400, d)
  /\ loanRouterPatch.reject now id d = (loanRouterPatch.Status400, d)
  /\ loanRouterPatch.cancel u now id d = (loanRouterPatch.Status400, d)
  /\ loanRouterPatch.void now id d = (loanRouterPatch.Status400, d)
  /\ loanRouter.post_payment now id amount payment_method d = (Failed BadRequest, d).
Proof.
  intros Hfind Hp Ha.
  unfold loanRouterPatch.approve, loanRouterPatch.reject, loanRouterPatch.cancel,
    loanRouterPatch.void, loanRouter.post_payment.
  rewrite Hfind.
  rewrite (bool_decide_eq_false_2 _ Hp), (bool_decide_eq_false_2 _ Ha).
  cbn [negb andb].
  repeat split.
  destruct (JS.not_ amount || JS.leb (JS.or_ amount 0) 0); reflexivity.
Qed.

Lemma pre_save_status (now : nat) (loan : Loan.t) :
  Loan.status loan <> Loan.approved -> Loan.pre_save now loan = loan.
Proof.
  intros H. unfold Loan.pre_save.
  rewrite (bool_decide_eq_false_2 _ H). reflexivity.
Qed.

(** X22.  A user in the role of supplier cannot approve, reject or void a loan
    nor record a manual payment: the routes answer 403 and change nothing.
    Such a user cancels a loan only if it belongs to the supplier record
    linked to the user. *)
Theorem supplier_role_limits (u : auth.user) (now id : nat) (amount : option Q)
    (payment_method : option LoanPayment.Method) (d : Db.t) :
  auth.role u = "supplier"%string ->
  loanRouterPatch.patch_approve u now id d = (auth.Refused, d)
  /\ loanRouterPatch.patch_reject u now id d = (auth.Refused, d)
  /\ loanRouterPatch.patch_void u now id d = (auth.Refused, d)
  /\ loanRouterPatch.post_payments u now id amount payment_method d = (auth.Refused, d)
  /\ ((exists (sent : option Loan.t),
         (loanRouterPatch.patch_cancel u now id d).1
         = auth.Handled (loanRouterPatch.Status200 sent))
      \/ (loanRouterPatch.patch_cancel u now id d).2 <> d ->
      exists (loan : Loan.t) (supplier : Supplier.t),
        Db.loans d !! id = Some loan
        /\ loanRouterPatch.findOne_supplier (auth.id u) d = Some supplier
        /\ Loan.supplier loan = Supplier._id supplier).
Proof.
  intros Hrole.
  unfold loanRouterPatch.patch_approve, loanRouterPatch.patch_reject,
    loanRouterPatch.patch_void, loanRouterPatch.post_payments,
    loanRouterPatch.patch_cancel, auth.authorize.
  rewrite Hrole.
  repeat (split; [reflexivity|]).
  cbn [auth.behind bool_decide negb andb fst snd].
  assert (Hin : bool_decide ("supplier"%string ∈ ["admin"; "owner"; "supplier"]%string)
                = true) by (vm_compute; reflexivity).
  rewrite Hin.
  assert (Hown : bool_decide ("supplier"%string = "owner"%string) = false)
    by (vm_compute; reflexivity).
  rewrite Hown. cbn [negb andb auth.behind fst snd].
  unfold loanRouterPatch.cancel. rewrite Hrole.
  rewrite (bool_decide_eq_true_2 _ (eq_refl "supplier"%string)).
  destruct (Db.loans d !! id) as [loan|] eqn:Hfind; cbn [fst snd].
  2:{ intros [[sent H]|H]; [discriminate | contradiction]. }
  destruct (negb (bool_decide (Loan.status loan = Loan.pending))
            && negb (bool_decide (Loan.status loan = Loan.approved))); cbn [fst snd].
  { intros [[sent H]|H]; [discriminate | contradiction]. }
  destruct (loanRouterPatch.findOne_supplier (auth.id u) d) as [supplier|] eqn:Hs;
    cbn [negb andb fst snd].
  2:{ intros [[sent H]|H]; [discriminate | contradiction]. }
  destruct (bool_decide (Loan.supplier loan = Supplier._id supplier)) eqn:Hown';
    cbn [negb andb fst snd].
  2:{ intros [[sent H]|H]; [discriminate | contradiction]. }
  intros _. exists loan, supplier. apply bool_decide_eq_true in Hown'. auto.
Qed.

(** X23.  Approval of a pending loan restarts its repayment: whatever
    [total_paid] the pending loan carried, the stored loan has nothing
    paid, the same amount, and is approved, or paid at once when its amount
    is not positive.  The loan is the only document of the loans collection
    that changes, and the route leaves the balance of the supplier as it
    was. *)
Theorem approve_restarts_repayment (now id : nat) (d : Db.t) (loan : Loan.t) :
  Db.loans d !! id = Some loan ->
  Loan._id loan = id ->
  Loan.status loan = Loan.pending ->
  exists approved : Loan.t,
    (loanRouterPatch.approve now id d).1 = loanRouterPatch.Status200 (Some approved)
    /\ Db.loans (loanRouterPatch.approve now id d).2 = <[id := approved]> (Db.loans d)
    /\ Loan.total_paid approved = 0
    /\ Loan.amount approved = Loan.amount loan
    /\ Loan.status approved
       = (if JS.leb (Loan.amount loan) 0 then Loan.paid else Loan.approved)
    /\ Db.suppliers (loanRouterPatch.approve now id d).2 = Db.suppliers d
    /\ Db.loanpayments (loanRouterPatch.approve now id d).2 = Db.loanpayments d
    /\ Db.transactions (loanRouterPatch.approve now id d).2 = Db.transactions d.
Proof.
  intros Hfind Hid Hst. unfold loanRouterPatch.approve.
  rewrite Hfind, Hst. rewrite bool_decide_eq_true_2 by reflexivity. cbn [negb].
  unfold Loan.save.
  set (l1 := Loan.set_status Loan.approved (Loan.set_total_paid 0 loan)).
  set (l2 := Loan.pre_save now l1).
  assert (Hl2 : Loan._id l2 = id /\ Loan.total_paid l2 = 0
                /\ Loan.amount l2 = Loan.amount loan
                /\ Loan.status l2
                   = (if JS.leb (Loan.amount loan) 0 then Loan.paid else Loan.approved)).
  { unfold l2, l1, Loan.pre_save. destruct loan. cbn in *. subst.
    unfold JS.geb, JS.leb. destruct (Qle_bool amount 0); cbn; auto. }
  destruct Hl2 as (H1 & H2 & H3 & H4).
  exists l2.
  assert (Hframe : forall d0 : Db.t,
             Db.loans
               match Db.findOne_creditscore (Loan.supplier l2) d0 with
               | Some creditScore => Db.update_creditscore creditScore d0
               | None => d0
               end = Db.loans d0
             /\ Db.suppliers
               match Db.findOne_creditscore (Loan.supplier l2) d0 with
               | Some creditScore => Db.update_creditscore creditScore d0
               | None => d0
               end = Db.suppliers d0
             /\ Db.loanpayments
               match Db.findOne_creditscore (Loan.supplier l2) d0 with
               | Some creditScore => Db.update_creditscore creditScore d0
               | None => d0
               end = Db.loanpayments d0
             /\ Db.transactions
               match Db.findOne_creditscore (Loan.supplier l2) d0 with
               | Some creditScore => Db.update_creditscore creditScore d0
               | None => d0
               end = Db.transactions d0).
  { intros d0. destruct (Db.findOne_creditscore _ d0); repeat split; reflexivity. }
  cbn [fst snd].
  destruct (Hframe (Db.set_loans (<[Loan._id l2 := l2]> (Db.loans d)) d))
    as (F1 & F2 & F3 & F4).
  rewrite F1, F2, F3, F4. cbn [Db.loans Db.set_loans Db.suppliers Db.loanpayments
    Db.transactions]. rewrite H1, lookup_insert_eq.
  repeat split; assumption.
Qed.


(** ** How a saved loan moves the balance *)
Section BalanceMoves.

Variable supplierId : nat.

Lemma filter_owed_sum (ls : list Loan.t) :
  fold_right (fun l acc => (Loan.amount l - Loan.total_paid l) + acc) 0
    (List.filter (supplierBalanceUtils.matches supplierId) ls)
  == Ledger.owed_sum supplierId ls.
Proof.
  induction ls as [|l ls IH]; cbn [List.filter fold_right Ledger.owed_sum].
  - reflexivity.
  - change (fold_right _ 0 ls) with (Ledger.owed_sum supplierId ls).
    unfold Ledger.owed at 1.
    destruct (supplierBalanceUtils.matches supplierId l); cbn [fold_right]; rewrite IH; lra.
Qed.

Lemma recalculate_owed_sum (loans : gmap nat Loan.t) (suppliers : gmap nat Supplier.t) :
  (supplierBalanceUtils.recalculateSupplierBalance supplierId loans suppliers).1
  == Ledger.owed_sum supplierId (map_to_list loans).*2.
Proof.
  unfold supplierBalanceUtils.recalculateSupplierBalance,
    supplierBalanceUtils.aggregate. cbn [fst].
  rewrite <- filter_owed_sum.
  destruct (List.filter _ _) as [|l ls]; [reflexivity|].
  rewrite fold_left_sum. lra.
Qed.

Lemma owed_sum_Permutation (ls ls' : list Loan.t) :
  ls ≡ₚ ls' -> Ledger.owed_sum supplierId ls == Ledger.owed_sum supplierId ls'.
Proof.
  induction 1 as [|x l l' _ IH|x y l|l l' l'' _ IH1 _ IH2]; cbn [Ledger.owed_sum fold_right].
  - reflexivity.
  - change (fold_right _ 0 l) with (Ledger.owed_sum supplierId l).
    change (fold_right _ 0 l') with (Ledger.owed_sum supplierId l'). lra.
  - lra.
  - lra.
Qed.

(** Saving a loan under the key of a stored loan replaces what the stored
    loan added to the balance by what the saved loan adds. *)
Lemma recalculate_after_insert (loans : gmap nat Loan.t)
    (suppliers suppliers' : gmap nat Supplier.t) (i : nat) (old new : Loan.t) :
  loans !! i = Some old ->
  (supplierBalanceUtils.recalculateSupplierBalance supplierId (<[i := new]> loans) suppliers').1
  == (supplierBalanceUtils.recalculateSupplierBalance supplierId loans suppliers).1
     - Ledger.owed supplierId old + Ledger.owed supplierId new.
Proof.
  intros Hold. rewrite !recalculate_owed_sum.
  assert (H1 : (map_to_list loans).*2 ≡ₚ old :: (map_to_list (delete i loans)).*2).
  { rewrite <- (map_to_list_delete loans i old Hold). reflexivity. }
  assert (H2 : (map_to_list (<[i := new]> loans)).*2
               ≡ₚ new :: (map_to_list (delete i loans)).*2).
  { rewrite <- insert_delete_eq.
    rewrite map_to_list_insert by apply lookup_delete_eq. reflexivity. }
  rewrite (owed_sum_Permutation _ _ H1), (owed_sum_Permutation _ _ H2).
  cbn [Ledger.owed_sum fold_right]. lra.
Qed.

End BalanceMoves.

(** ** The loan controller *)


(** X25.  Whatever [calculateCreditScoreComponents] is, the eligibility check of
    the controller never finds a request eligible that is above the limit
    it reports, nor one of a supplier without a completed transaction. *)
Theorem controller_gate_enforces_limit
    (calculateCreditScoreComponents : list Transaction.t -> loanController.creditDetails)
    (supplierId : nat) (requestedAmount : Q) (d : Db.t) :
  loanController.eligible
    (loanController.checkLoanEligibility calculateCreditScoreComponents
       supplierId requestedAmount d) = true ->
  requestedAmount
  <= loanController.limit
       (loanController.checkLoanEligibility calculateCreditScoreComponents
          supplierId requestedAmount d)
  /\ Db.find_completed supplierId d <> [].
Proof.
  unfold loanController.checkLoanEligibility.
  destruct (Db.find_completed supplierId d) as [|t ts]; cbn [length Nat.eqb].
  - cbn. discriminate.
  - destruct (creditScoreRouter.latestScore supplierId d) as [c|];
      cbn [loanController.eligible loanController.limit];
      intros H; apply andb_true_iff in H; destruct H as [H _];
      apply leb_iff in H; split; [exact H | discriminate | exact H | discriminate].
Qed.


(** ** The credit score after a loan payment *)

Lemma scoreAdjustment_range (loan : Loan.t) (due_date : Z) (payment : LoanPayment.t)
    (paymentDate : option Z) :
  let adjustment := loanPaymentScore.scoreAdjustment loan due_date payment paymentDate in
  -10 <= adjustment <= 5
  /\ (match loanPaymentScore.daysLate due_date paymentDate with
      | Some daysLate => (daysLate <= 0)%Z
      | None => True
      end -> 2 <= adjustment).
Proof.
  cbv zeta. unfold loanPaymentScore.scoreAdjustment.
  destruct (loanPaymentScore.daysLate due_date paymentDate) as [n|].
  - destruct (0 <? n)%Z eqn:En.
    + apply Z.ltb_lt in En.
      assert (Hn : 1 <= inject_Z n).
      { change 1 with (inject_Z 1). rewrite <- Zle_Qle. lia. }
      unfold JS.Math_min.
      destruct (loanPaymentScore.significant _ _); (split; [q_minmax; lra | lia]).
    + destruct (loanPaymentScore.significant _ _); (split; [lra | intros _; lra]).
  - destruct (loanPaymentScore.significant _ _); (split; [lra | intros _; lra]).
Qed.

(** X28.  [updateCreditScore] stores the score it returns, between 0 and 100.
    Against the previous score (50 for a supplier without one), clamped to
    that range, one payment costs at most 10 points and earns at most 5,
    and a payment that is not late never lowers it. *)
Theorem updateCreditScore_bounded (now : nat) (loan : Loan.t) (due_date : Z)
    (payment : LoanPayment.t) (paymentDate : option Z) (d : Db.t) :
  let previous :=
    match Db.findOne_creditscore (Loan.supplier loan) d with
    | Some creditScore => CreditScore.score creditScore
    | None => 50
    end in
  let clamped := Qmin 100 (Qmax 0 previous) in
  let r := loanPaymentScore.updateCreditScore now loan due_date payment paymentDate d in
  Db.findOne_creditscore (Loan.supplier loan) r.2 = Some r.1
  /\ 0 <= CreditScore.score r.1 <= 100
  /\ clamped - 10 <= CreditScore.score r.1 <= clamped + 5
  /\ (match loanPaymentScore.daysLate due_date paymentDate with
      | Some daysLate => (daysLate <= 0)%Z
      | None => True
      end -> clamped <= CreditScore.score r.1).
Proof.
  cbv zeta. unfold loanPaymentScore.updateCreditScore.
  destruct (scoreAdjustment_range loan due_date payment paymentDate) as [Hadj Hok].
  set (adjustment := loanPaymentScore.scoreAdjustment loan due_date payment paymentDate) in *.
  cbn [fst snd].
  destruct (Db.findOne_creditscore (Loan.supplier loan) d) as [c|] eqn:Hfind.
  - assert (Hsup : CreditScore.supplier c = Loan.supplier loan).
    { unfold Db.findOne_creditscore in Hfind. apply List.find_some in Hfind.
      destruct Hfind as [_ H]. apply bool_decide_eq_true in H. exact H. }
    set (score := JS.Math_min 100 (Qmax 0 (CreditScore.score c + adjustment))).
    assert (Hrange : 0 <= score <= 100).
    { unfold score, JS.Math_min. q_minmax; lra. }
    set (c' := CreditScore.mk _ score _ _ _ _ _ _ _ _).
    assert (Hpre : CreditScore.pre_save c' = c').
    { unfold CreditScore.pre_save. cbn [CreditScore.score c'].
      destruct Hrange as [H0 H1].
      apply ltb_false in H0. rewrite H0. apply gtb_false in H1. rewrite H1.
      reflexivity. }
    rewrite Hpre. split.
    + unfold Db.update_creditscore, Db.findOne_creditscore.
      cbn [Db.creditscores Db.set_creditscores]. rewrite Hpre.
      change (CreditScore.supplier c') with (CreditScore.supplier c). rewrite Hsup.
      unfold Db.findOne_creditscore in Hfind.
      induction (Db.creditscores d) as [|c0 cs IH]; [discriminate|].
      cbn [List.find Db.replace_first] in *.
      destruct (bool_decide (CreditScore.supplier c0 = Loan.supplier loan)) eqn:E.
      * cbn [List.find]. change (CreditScore.supplier c') with (CreditScore.supplier c).
        rewrite Hsup. rewrite bool_decide_eq_true_2 by reflexivity. reflexivity.
      * cbn [List.find]. rewrite E. apply IH, Hfind.
    + cbn [CreditScore.score c']. split; [exact Hrange|].
      unfold score, JS.Math_min. split; [split|].
      * q_minmax; lra.
      * q_minmax; lra.
      * intros Hlate. specialize (Hok Hlate). q_minmax; lra.
  - set (score := JS.Math_min 100 (Qmax 0 (CreditScore.score _ + adjustment))).
    assert (Hrange : 0 <= score <= 100).
    { unfold score, JS.Math_min. q_minmax; lra. }
    set (c' := CreditScore.mk _ score _ _ _ _ _ _ _ _).
    assert (Hpre : CreditScore.pre_save c' = c').
    { unfold CreditScore.pre_save. cbn [CreditScore.score c'].
      destruct Hrange as [H0 H1].
      apply ltb_false in H0. rewrite H0. apply gtb_false in H1. rewrite H1.
      reflexivity. }
    rewrite Hpre. split.
    + unfold Db.insert_creditscore, Db.findOne_creditscore.
      cbn [Db.creditscores Db.set_creditscores]. rewrite Hpre.
      unfold Db.findOne_creditscore in Hfind.
      induction (Db.creditscores d) as [|c0 cs IH]; cbn [List.find app] in *.
      * change (CreditScore.supplier c') with (Loan.supplier loan).
        rewrite bool_decide_eq_true_2 by reflexivity. reflexivity.
      * destruct (bool_decide (CreditScore.supplier c0 = Loan.supplier loan));
          [discriminate | apply IH, Hfind].
    + cbn [CreditScore.score c']. split; [exact Hrange|].
      unfold score, JS.Math_min.
      change (CreditScore.score (CreditScore.defaults (Loan.supplier loan) 50 now)) with 50.
      split; [split|].
      * q_minmax; lra.
      * q_minmax; lra.
      * intros Hlate. specialize (Hok Hlate). q_minmax; lra.
Qed.

(** ** Instances of the properties above *)

Lemma closed_loan_stays_closed_witness :
  loanRouterPatch.approve 4 1 Samples.closed = (loanRouterPatch.Status400, Samples.closed)
  /\ loanRouterPatch.reject 4 1 Samples.closed = (loanRouterPatch.Status400, Samples.closed)
  /\ loanRouterPatch.cancel Samples.an_admin 4 1 Samples.closed
     = (loanRouterPatch.Status400, Samples.closed)
  /\ loanRouterPatch.void 4 1 Samples.closed = (loanRouterPatch.Status400, Samples.closed)
  /\ loanRouter.post_payment 4 1 (Some 5) None Samples.closed
     = (Failed BadRequest, Samples.closed).
Proof.
  apply (closed_loan_stays_closed Samples.an_admin 4 1 (Some 5) None Samples.closed
           Fixtures.loan_closed).
  - vm_compute. reflexivity.
  - discriminate.
  - discriminate.
Defined.

Lemma supplier_role_limits_witness :
  loanRouterPatch.patch_approve Samples.user_3 4 1 Samples.pending_request
  = (auth.Refused, Samples.pending_request)
  /\ loanRouterPatch.patch_reject Samples.user_3 4 1 Samples.pending_request
     = (auth.Refused, Samples.pending_request)
  /\ loanRouterPatch.patch_void Samples.user_3 4 1 Samples.pending_request
     = (auth.Refused, Samples.pending_request)
  /\ loanRouterPatch.post_payments Samples.user_3 4 1 (Some 5) None Samples.pending_request
     = (auth.Refused, Samples.pending_request)
  /\ ((exists (sent : option Loan.t),
         (loanRouterPatch.patch_cancel Samples.user_3 4 1 Samples.pending_request).1
         = auth.Handled (loanRouterPatch.Status200 sent))
      \/ (loanRouterPatch.patch_cancel Samples.user_3 4 1 Samples.pending_request).2
         <> Samples.pending_request ->
      exists (loan : Loan.t) (supplier : Supplier.t),
        Db.loans Samples.pending_request !! 1%nat = Some loan
        /\ loanRouterPatch.findOne_supplier (auth.id Samples.user_3) Samples.pending_request
           = Some supplier
        /\ Loan.supplier loan = Supplier._id supplier).
Proof.
  apply (supplier_role_limits Samples.user_3 4 1 (Some 5) None Samples.pending_request).
  reflexivity.
Defined.

Lemma approve_restarts_repayment_witness :
  exists approved : Loan.t,
    (loanRouterPatch.approve 2 1 Samples.pending_request).1
    = loanRouterPatch.Status200 (Some approved)
    /\ Db.loans (loanRouterPatch.approve 2 1 Samples.pending_request).2
       = <[1%nat := approved]> (Db.loans Samples.pending_request)
    /\ Loan.total_paid approved = 0
    /\ Loan.amount approved = Loan.amount Samples.loan_pending
    /\ Loan.status approved
       = (if JS.leb (Loan.amount Samples.loan_pending) 0 then Loan.paid else Loan.approved)
    /\ Db.suppliers (loanRouterPatch.approve 2 1 Samples.pending_request).2
       = Db.suppliers Samples.pending_request
    /\ Db.loanpayments (loanRouterPatch.approve 2 1 Samples.pending_request).2
       = Db.loanpayments Samples.pending_request
    /\ Db.transactions (loanRouterPatch.approve 2 1 Samples.pending_request).2
       = Db.transactions Samples.pending_request.
Proof.
  apply (approve_restarts_repayment 2 1 Samples.pending_request Samples.loan_pending).
  - vm_compute. reflexivity.
  - reflexivity.
  - reflexivity.
Defined.


Lemma controller_gate_enforces_limit_witness :
  100 <= loanController.limit
           (loanController.checkLoanEligibility Samples.flat_details 7 100
              (Fixtures.db_of [] [Fixtures.purchase 10 500]))
  /\ Db.find_completed 7 (Fixtures.db_of [] [Fixtures.purchase 10 500]) <> [].
Proof.
  apply (controller_gate_enforces_limit Samples.flat_details 7 100
           (Fixtures.db_of [] [Fixtures.purchase 10 500])).
  vm_compute. reflexivity.
Defined.

(** * The application with its middleware *)

(** ** Stored loans *)
Section Conforming.

Lemma conforming_lookup (loans : gmap nat Loan.t) (k : nat) (l : Loan.t) :
  Ledger.conforming loans -> loans !! k = Some l ->
  Loan._id l = k /\ LoanSchema.stored l = l.
Proof.
  intros Hc Hl. destruct (Hc k l Hl) as (H1 & H2 & H3 & H4 & H5).
  split; [exact H1|]. destruct l. cbn in *. subst. reflexivity.
Qed.

Lemma conforming_insert (loans : gmap nat Loan.t) (l : Loan.t) :
  Ledger.conforming loans ->
  Ledger.conforming (<[Loan._id l := LoanSchema.stored l]> loans).
Proof.
  intros Hc. apply map_Forall_insert_2; [|exact Hc].
  repeat split; reflexivity.
Qed.

Lemma outstanding_stored (supplier : nat) (l : Loan.t) :
  Loan.total_amount_with_interest l = None ->
  TransactionHooks.outstanding supplier l = false.
Proof.
  intros H. unfold TransactionHooks.outstanding. rewrite H. apply andb_false_r.
Qed.

Lemma filter_none {A} (p : A -> bool) (xs : list A) :
  Forall (fun x => p x = false) xs -> List.filter p xs = [].
Proof.
  induction 1 as [|x xs Hx _ IH]; cbn [List.filter]; [reflexivity|].
  rewrite Hx. exact IH.
Qed.

Lemma no_outstanding (supplier : nat) (d : Db.t) :
  Ledger.conforming (Db.loans d) ->
  Db.find_loans_oldest_first (TransactionHooks.outstanding supplier) d = [].
Proof.
  intros Hc. unfold Db.find_loans_oldest_first.
  rewrite filter_none; [reflexivity|].
  apply Forall_forall. intros l Hl.
  apply list_elem_of_fmap in Hl. destruct Hl as ([k l'] & -> & Hin).
  apply elem_of_map_to_list in Hin. cbn [snd].
  destruct (Hc k l' Hin) as (_ & _ & H3 & _).
  apply outstanding_stored, H3.
Qed.



End Conforming.


(** ** The middleware of [transaction.save()] *)
Section TransactionSave.

Variable now : nat.

Lemma credit_score_frame (this : Transaction.t) (d : Db.t) :
  let d' := TransactionHooks.credit_score now this d in
  Db.loans d' = Db.loans d
  /\ Db.loanpayments d' = Db.loanpayments d
  /\ Db.transactions d' = Db.transactions d
  /\ Db.suppliers d' = Db.suppliers d.
Proof.
  cbv zeta. unfold TransactionHooks.credit_score, TransactionHooks.initial_credit_score,
    TransactionHooks.formula_credit_score.
  destruct (_ <? _)%nat; destruct (Db.findOne_creditscore _ d);
    repeat split; reflexivity.
Qed.

(** The paths the middleware writes on a completed transaction when no
    loan is outstanding. *)
Lemma auto_debit_dead (this : Transaction.t) (d : Db.t) :
  Ledger.conforming (Db.loans d) ->
  App.auto_debit now this d
  = (Ledger.settled this, [],
     Db.set_transactions
       (alter (fun x => Transaction.set_paid_amount (Transaction.total_amount this)
                 (Transaction.set_amount_after_deduction
                    (Some (Transaction.total_amount this)) x))
          (Transaction._id this) (Db.transactions d)) d).
Proof.
  intros Hc. unfold App.auto_debit. rewrite (no_outstanding _ d Hc). reflexivity.
Qed.

Lemma transaction_save_effect (isNew : bool) (x : Transaction.t) (d : Db.t) :
  Ledger.conforming (Db.loans d) ->
  let x' := Transaction.pre_save isNew x in
  let saved :=
    if bool_decide (Transaction.status x' = Transaction.completed)
    then Ledger.settled x' else x' in
  (App.transaction_save now isNew x d).1 = saved
  /\ Db.transactions (App.transaction_save now isNew x d).2
     = <[Transaction._id x' := saved]> (Db.transactions d)
  /\ Db.loans (App.transaction_save now isNew x d).2 = Db.loans d
  /\ Db.loanpayments (App.transaction_save now isNew x d).2 = Db.loanpayments d.
Proof.
  intros Hc. cbv zeta. unfold App.transaction_save, App.transaction_post_save.
  set (x' := Transaction.pre_save isNew x).
  destruct (bool_decide (Transaction.status x' = Transaction.completed)).
  - rewrite auto_debit_dead by exact Hc.
    set (d1 := Db.set_transactions _ _).
    destruct (credit_score_frame (Ledger.settled x') d1) as (F1 & F2 & F3 & F4).
    cbv zeta in F1, F2, F3, F4.
    unfold supplierBalanceUtils.recalculateSupplierBalance.
    cbn [fst snd Db.transactions Db.loans Db.loanpayments Db.set_suppliers].
    rewrite F1, F2, F3. unfold d1.
    cbn [Db.transactions Db.loans Db.loanpayments Db.set_transactions].
    split; [reflexivity|]. split; [|split; reflexivity].
    apply map_eq. intros k. destruct (decide (Transaction._id x' = k)) as [<-|Hne].
    + rewrite lookup_alter_eq, !lookup_insert_eq. reflexivity.
    + rewrite lookup_alter_ne, !lookup_insert_ne by assumption. reflexivity.
  - cbn [fst snd Db.transactions Db.loans Db.loanpayments Db.set_transactions].
    repeat split; reflexivity.
Qed.

End TransactionSave.

(** ** The loan-payment middleware on a stored loan *)
Section StoredLoan.

Variable now : nat.

(** The stored loan after [LoanPaymentSchema.post('save')]: the amount is
    added to [total_paid], and the loan is closed when that reaches
    [amount], the total the middleware derives for a loan without interest
    paths. *)
Lemma hook_on_stored_loan (p : LoanPayment.t) (loan : Loan.t) :
  LoanSchema.stored loan = loan ->
  let closes := JS.geb (Loan.total_paid loan + LoanPayment.amount p) (Loan.amount loan) in
  Loan.pre_save now (LoanPayment.apply_payment now p loan)
  = Loan.mk (Loan._id loan) (Loan.supplier loan) (Loan.amount loan) None
      (Some (Loan.amount loan)) (Loan.total_paid loan + LoanPayment.amount p)
      (Some (0 + LoanPayment.amount p)) (Some 0)
      (if closes then Loan.paid else Loan.status loan)
      (Some (default now (LoanPayment.payment_date p)))
      (if closes then Some now else Loan.completionDate loan) (Loan.createdAt loan).
Proof.
  destruct loan as [i su a ir tawi tp pp ip st lpd cd ca].
  unfold LoanSchema.stored. cbn [Loan._id Loan.supplier Loan.amount Loan.total_paid
    Loan.status Loan.lastPaymentDate Loan.completionDate Loan.createdAt].
  intros Hs. inversion Hs as [[H1 H2 H3 H4]]. clear Hs. cbv zeta.
  unfold LoanPayment.apply_payment, LoanPayment.init_fields.
  cbn -[Qplus Qminus JS.gtb JS.geb].
  assert (Hgt : JS.gtb (a - a - 0) 0 = false) by (apply gtb_false; lra).
  rewrite Hgt. cbn -[Qplus Qminus JS.gtb JS.geb].
  unfold Loan.pre_save.
  destruct (JS.geb (tp + LoanPayment.amount p) a) eqn:E;
    cbn -[Qplus Qminus JS.gtb JS.geb]; rewrite ?E, ?andb_false_r;
    try rewrite (bool_decide_eq_false_2 (Loan.paid = Loan.approved)) by discriminate;
    reflexivity.
Qed.

Lemma loanPayment_save_effect (p : LoanPayment.t) (d : Db.t) (loan : Loan.t) :
  Ledger.conforming (Db.loans d) ->
  Db.loans d !! LoanPayment.loan p = Some loan ->
  let closes := JS.geb (Loan.total_paid loan + LoanPayment.amount p) (Loan.amount loan) in
  App.loanPayment_save now p d
  = Db.mk
      (<[LoanPayment.loan p :=
           Loan.mk (Loan._id loan) (Loan.supplier loan) (Loan.amount loan) None None
             (Loan.total_paid loan + LoanPayment.amount p) None None
             (if closes then Loan.paid else Loan.status loan)
             (Some (default now (LoanPayment.payment_date p)))
             (if closes then Some now else Loan.completionDate loan)
             (Loan.createdAt loan)]> (Db.loans d))
      (Db.loanpayments d ++ [p]) (Db.transactions d) (Db.creditscores d) (Db.suppliers d).
Proof.
  intros Hc Hl. cbv zeta. destruct (conforming_lookup _ _ _ Hc Hl) as [Hid Hst].
  unfold App.loanPayment_save, App.loan_save.
  cbn [Db.loans Db.set_loanpayments]. rewrite Hl.
  rewrite (hook_on_stored_loan p loan Hst). cbv zeta.
  cbn [Loan._id LoanSchema.stored Loan.supplier Loan.amount Loan.total_paid Loan.status
       Loan.lastPaymentDate Loan.completionDate Loan.createdAt].
  rewrite Hid. destruct d; reflexivity.
Qed.


End StoredLoan.

(** ** The create handler *)
Section AppCreate.

Variables (now new_id : nat) (req : transactionRouter.body) (d : Db.t) (s : nat).

Hypothesis Hconforming : Ledger.conforming (Db.loans d).
Hypothesis Hsupplier : transactionRouter.supplier req = Some s.
Hypothesis Hquantity : JS.not_ (transactionRouter.quantity req) = false.
Hypothesis Hprice : JS.not_ (transactionRouter.unit_price req) = false.
Hypothesis Hstatus :
  default Transaction.completed (transactionRouter.status req) = Transaction.completed.

Let total_price : Q :=
  (JS.or_ (transactionRouter.quantity req) 0 - JS.or_ (transactionRouter.less_kilo req) 0)
  * JS.or_ (transactionRouter.unit_price req) 0.



(** A later [save()] of the completed transaction: the middleware writes
    the whole amount over what the handler set as left and paid out. *)
Lemma later_save (x : Transaction.t) (d0 : Db.t) :
  Ledger.conforming (Db.loans d0) ->
  Transaction.status x = Transaction.completed ->
  let saved := Ledger.settled x in
  (App.transaction_save now false x d0).1 = saved
  /\ Db.transactions (App.transaction_save now false x d0).2
     = <[Transaction._id x := saved]> (Db.transactions d0)
  /\ Db.loans (App.transaction_save now false x d0).2 = Db.loans d0
  /\ Db.loanpayments (App.transaction_save now false x d0).2 = Db.loanpayments d0.
Proof.
  intros Hc Hst. cbv zeta.
  destruct (transaction_save_effect now false x d0 Hc) as (E1 & E2 & E3 & E4).
  cbv zeta in E1, E2.
  destruct (transaction_pre_save_later x) as [Hid Hs].
  rewrite Hs, Hst in E1, E2. rewrite Hid in E2.
  rewrite bool_decide_eq_true_2 in E1, E2 by reflexivity.
  assert (Hsettled : Ledger.settled (Transaction.pre_save false x) = Ledger.settled x).
  { unfold Ledger.settled, Transaction.pre_save. cbn [orb].
    destruct (JS.not_ (Transaction.amount_after_deduction x)); reflexivity. }
  rewrite Hsettled in E1, E2. auto.
Qed.



End AppCreate.


(** ** The cancel and the void handler *)
Section AppTerminate.

Variable now : nat.




End AppTerminate.

(** ** A deduction and its reversal *)



(** ** The transaction middleware and the loans *)

Lemma transaction_pre_save_keeps (isNew : bool) (x : Transaction.t) :
  Transaction._id (Transaction.pre_save isNew x) = Transaction._id x
  /\ Transaction.status (Transaction.pre_save isNew x) = Transaction.status x
  /\ Transaction.supplier (Transaction.pre_save isNew x) = Transaction.supplier x.
Proof.
  unfold Transaction.pre_save.
  destruct isNew; cbn [orb]; [repeat split; reflexivity|].
  destruct (JS.not_ (Transaction.amount_after_deduction x)); repeat split; reflexivity.
Qed.

(** X4.  The query of the transaction middleware compares [total_paid]
    with [total_amount_with_interest], a path the loans collection never
    holds: it selects no loan, and the auto-debit deducts nothing.  It
    writes the whole amount as left and as paid out, on the document and on
    the stored transaction, and changes no loan and no payment row. *)
Theorem auto_debit_skips_stored_loans (now : nat) (this : Transaction.t) (d : Db.t) :
  Ledger.conforming (Db.loans d) ->
  Db.find_loans_oldest_first (TransactionHooks.outstanding (Transaction.supplier this)) d
  = []
  /\ (App.auto_debit now this d).1
     = (Transaction.set_paid_amount (Transaction.total_amount this)
          (Transaction.set_amount_after_deduction (Some (Transaction.total_amount this))
             this), [])
  /\ Db.loans (App.auto_debit now this d).2 = Db.loans d
  /\ Db.loanpayments (App.auto_debit now this d).2 = Db.loanpayments d
  /\ Db.transactions (App.auto_debit now this d).2 !! Transaction._id this
     = (fun x =>
          Transaction.set_paid_amount (Transaction.total_amount this)
            (Transaction.set_amount_after_deduction (Some (Transaction.total_amount this))
               x))
       <$> Db.transactions d !! Transaction._id this.
Proof.
  intros Hc. split; [apply no_outstanding, Hc|].
  rewrite (auto_debit_dead now this d Hc). cbn [fst snd Db.loans Db.loanpayments
    Db.transactions Db.set_transactions].
  split; [reflexivity|]. split; [reflexivity|]. split; [reflexivity|].
  apply lookup_alter_eq.
Qed.

Lemma auto_debit_skips_stored_loans_witness :
  Db.find_loans_oldest_first
    (TransactionHooks.outstanding (Transaction.supplier (Fixtures.purchase 10 2000)))
    Samples.one_plain_loan
  = []
  /\ (App.auto_debit 0 (Fixtures.purchase 10 2000) Samples.one_plain_loan).1
     = (Transaction.set_paid_amount (Transaction.total_amount (Fixtures.purchase 10 2000))
          (Transaction.set_amount_after_deduction
             (Some (Transaction.total_amount (Fixtures.purchase 10 2000)))
             (Fixtures.purchase 10 2000)), [])
  /\ Db.loans (App.auto_debit 0 (Fixtures.purchase 10 2000) Samples.one_plain_loan).2
     = Db.loans Samples.one_plain_loan
  /\ Db.loanpayments (App.auto_debit 0 (Fixtures.purchase 10 2000) Samples.one_plain_loan).2
     = Db.loanpayments Samples.one_plain_loan
  /\ Db.transactions (App.auto_debit 0 (Fixtures.purchase 10 2000) Samples.one_plain_loan).2
       !! Transaction._id (Fixtures.purchase 10 2000)
     = (fun x =>
          Transaction.set_paid_amount (Transaction.total_amount (Fixtures.purchase 10 2000))
            (Transaction.set_amount_after_deduction
               (Some (Transaction.total_amount (Fixtures.purchase 10 2000))) x))
       <$> Db.transactions Samples.one_plain_loan
             !! Transaction._id (Fixtures.purchase 10 2000).
Proof.
  apply (auto_debit_skips_stored_loans 0 (Fixtures.purchase 10 2000) Samples.one_plain_loan).
  apply (bool_decide_unpack _). vm_compute. reflexivity.
Defined.



(** ** A payment on a stored loan *)



(** X8.  A payment of a non-negative amount on a stored approved loan that
    is not overpaid never raises the balance [recalculateSupplierBalance]
    computes for the supplier of the loan. *)
Theorem payment_never_raises_balance (now : nat) (p : LoanPayment.t) (d : Db.t)
    (loan : Loan.t) (suppliers : gmap nat Supplier.t) :
  Ledger.conforming (Db.loans d) ->
  Db.loans d !! LoanPayment.loan p = Some loan ->
  Loan.status loan = Loan.approved ->
  0 <= LoanPayment.amount p ->
  Loan.total_paid loan <= Loan.amount loan ->
  (supplierBalanceUtils.recalculateSupplierBalance (Loan.supplier loan)
     (Db.loans (App.loanPayment_save now p d)) suppliers).1
  <= (supplierBalanceUtils.recalculateSupplierBalance (Loan.supplier loan)
        (Db.loans d) suppliers).1.
Proof.
  intros Hc Hl Hst Hamount Hpaid.
  rewrite (loanPayment_save_effect now p d loan Hc Hl). cbv zeta. cbn [Db.loans].
  rewrite (recalculate_after_insert (Loan.supplier loan) (Db.loans d) suppliers suppliers
             (LoanPayment.loan p) loan _ Hl).
  unfold Ledger.owed, supplierBalanceUtils.matches.
  cbn [Loan.supplier Loan.status Loan.amount Loan.total_paid].
  rewrite Hst. rewrite !bool_decide_eq_true_2 by reflexivity. cbn [andb].
  destruct (JS.geb (Loan.total_paid loan + LoanPayment.amount p) (Loan.amount loan)).
  - rewrite bool_decide_eq_false_2 by discriminate. lra.
  - rewrite bool_decide_eq_true_2 by reflexivity. lra.
Qed.

Lemma payment_never_raises_balance_witness :
  (supplierBalanceUtils.recalculateSupplierBalance (Loan.supplier Fixtures.loan_1000_plain)
     (Db.loans (App.loanPayment_save 5 Fixtures.payment_800 Samples.one_plain_loan))
     (Db.suppliers Samples.supplier_with_loan)).1
  <= (supplierBalanceUtils.recalculateSupplierBalance (Loan.supplier Fixtures.loan_1000_plain)
        (Db.loans Samples.one_plain_loan) (Db.suppliers Samples.supplier_with_loan)).1.
Proof.
  apply (payment_never_raises_balance 5 Fixtures.payment_800 Samples.one_plain_loan
           Fixtures.loan_1000_plain (Db.suppliers Samples.supplier_with_loan)).
  - apply (bool_decide_unpack _). vm_compute. reflexivity.
  - reflexivity.
  - reflexivity.
  - vm_compute. discriminate.
  - vm_compute. discriminate.
Defined.

(** X10.  On a stored loan the payment route and the payment middleware
    split a payment differently.  The route subtracts from
    [total_amount_with_interest], which the loan does not have, so its
    portions are not numbers; the middleware takes [amount] for the missing
    total, books no interest and the whole payment as principal. *)
Theorem route_and_middleware_split_differently (now : nat) (p : LoanPayment.t)
    (loan : Loan.t) :
  LoanSchema.stored loan = loan ->
  loanPaymentRouter.distribution loan (LoanPayment.amount p) = None
  /\ Loan.total_amount_with_interest (LoanPayment.apply_payment now p loan)
     = Some (Loan.amount loan)
  /\ Loan.interest_paid (LoanPayment.apply_payment now p loan) = Some 0
  /\ Loan.principal_paid (LoanPayment.apply_payment now p loan)
     = Some (0 + LoanPayment.amount p).
Proof.
  intros Hs. destruct loan as [i su a ir tawi tp pp ip st lpd cd ca].
  unfold LoanSchema.stored in Hs. cbn [Loan._id Loan.supplier Loan.amount Loan.total_paid
    Loan.status Loan.lastPaymentDate Loan.completionDate Loan.createdAt] in Hs.
  injection Hs as H1 H2 H3 H4. subst ir tawi pp ip.
  split; [reflexivity|].
  unfold LoanPayment.apply_payment, LoanPayment.init_fields.
  cbn -[Qplus Qminus JS.gtb JS.geb].
  assert (Hgt : JS.gtb (a - a - 0) 0 = false) by (apply gtb_false; lra).
  rewrite Hgt. cbn -[Qplus Qminus JS.gtb JS.geb].
  destruct (JS.geb (tp + LoanPayment.amount p) a); repeat split; reflexivity.
Qed.

Lemma route_and_middleware_split_differently_witness :
  loanPaymentRouter.distribution Fixtures.loan_1000_plain
    (LoanPayment.amount Fixtures.payment_800) = None
  /\ Loan.total_amount_with_interest
       (LoanPayment.apply_payment 5 Fixtures.payment_800 Fixtures.loan_1000_plain)
     = Some (Loan.amount Fixtures.loan_1000_plain)
  /\ Loan.interest_paid
       (LoanPayment.apply_payment 5 Fixtures.payment_800 Fixtures.loan_1000_plain)
     = Some 0
  /\ Loan.principal_paid
       (LoanPayment.apply_payment 5 Fixtures.payment_800 Fixtures.loan_1000_plain)
     = Some (0 + LoanPayment.amount Fixtures.payment_800).
Proof.
  apply (route_and_middleware_split_differently 5 Fixtures.payment_800
           Fixtures.loan_1000_plain).
  reflexivity.
Defined.

(** ** The loan request *)

(** X19.  Whenever the supplier's loan limit is positive the loan request
    handler accepts the request whatever amount is asked for.  The loan it
    stores and sends is pending with [total_paid] 0 and has the paths of
    the schema only: the interest rate of the request and the total with
    interest are not kept.  No other loan changes. *)
Theorem loan_request_stores_schema_paths (now new_id : nat) (req : loanRouter.body)
    (d : Db.t) :
  let eligibility :=
    loanRouter.checkLoanEligibility (loanRouter.supplier_id req) (loanRouter.amount req) d in
  loanRouter.eligible eligibility = true ->
  0 < loanRouter.limit eligibility ->
  let loan :=
    Loan.mk new_id (loanRouter.supplier_id req) (loanRouter.amount req) None None 0
      None None Loan.pending None None now in
  App.loanRouter_post now new_id req d
  = (Sent loan, Db.set_loans (<[new_id := loan]> (Db.loans d)) d)
  /\ (Ledger.conforming (Db.loans d) ->
      Ledger.conforming (Db.loans (App.loanRouter_post now new_id req d).2)).
Proof.
  intros eligibility He Hl loan.
  assert (Heq : App.loanRouter_post now new_id req d
                = (Sent loan, Db.set_loans (<[new_id := loan]> (Db.loans d)) d)).
  { unfold App.loanRouter_post. fold eligibility. rewrite He.
    assert (Hleb : JS.leb (loanRouter.limit eligibility) 0 = false)
      by (apply leb_false; exact Hl).
    rewrite Hleb. cbn [negb orb]. unfold App.loan_save, Loan.pre_save.
    cbn [Loan.status]. rewrite (bool_decide_eq_false_2 (Loan.pending = Loan.approved))
      by discriminate.
    cbn [andb Loan._id LoanSchema.stored Loan.supplier Loan.amount Loan.total_paid
         Loan.status Loan.lastPaymentDate Loan.completionDate Loan.createdAt
         Db.loans Db.set_loans].
    rewrite lookup_insert_eq. reflexivity. }
  split; [exact Heq|].
  intros Hc. rewrite Heq. cbn [snd Db.loans Db.set_loans].
  change (Ledger.conforming (<[Loan._id loan := LoanSchema.stored loan]> (Db.loans d))).
  apply conforming_insert, Hc.
Qed.

Lemma loan_request_stores_schema_paths_witness :
  let loan :=
    Loan.mk 1 (loanRouter.supplier_id Fixtures.request_1000)
      (loanRouter.amount Fixtures.request_1000) None None 0 None None Loan.pending
      None None 1 in
  App.loanRouter_post 1 1 Fixtures.request_1000 Samples.history
  = (Sent loan, Db.set_loans (<[1%nat := loan]> (Db.loans Samples.history)) Samples.history)
  /\ (Ledger.conforming (Db.loans Samples.history) ->
      Ledger.conforming
        (Db.loans (App.loanRouter_post 1 1 Fixtures.request_1000 Samples.history).2)).
Proof.
  apply (loan_request_stores_schema_paths 1 1 Fixtures.request_1000 Samples.history).
  - reflexivity.
  - vm_compute. reflexivity.
Defined.

(** ** What the create handler stores *)





(** ** What the cancel and the void handler store *)



(** ** Payments on a transaction *)

(** The transaction as [paymentSchema.pre('save')] and the middleware of
    its [transaction.save()] leave it. *)
Lemma payment_save_effect (now : nat) (this : Payment.t) (d : Db.t) (x : Transaction.t) :
  Ledger.conforming (Db.loans d) ->
  Db.transactions d !! Payment.transaction this = Some x ->
  Transaction._id x = Payment.transaction this ->
  let paid := Transaction.paid_amount x + Payment.amount this in
  let completes := JS.geb paid (Transaction.total_amount x) in
  exists (x' : Transaction.t) (d' : Db.t),
    App.payment_pre_save now this d = Some d'
    /\ Db.transactions d' = <[Payment.transaction this := x']> (Db.transactions d)
    /\ Transaction.status x'
       = (if completes then Transaction.completed else Transaction.pending)
    /\ Transaction.paid_amount x'
       = (if completes then Transaction.total_amount x else paid)
    /\ Transaction.total_amount x' = Transaction.total_amount x
    /\ Db.loans d' = Db.loans d
    /\ Db.loanpayments d' = Db.loanpayments d.
Proof.
  intros Hc Hfind Hid. cbv zeta.
  unfold App.payment_pre_save. rewrite Hfind.
  cbn [Transaction.paid_amount Transaction.total_amount Transaction.set_paid_amount].
  destruct (JS.geb (Transaction.paid_amount x + Payment.amount this)
              (Transaction.total_amount x)).
  - set (x2 := Transaction.set_status _ _).
    destruct (later_save now x2 d Hc eq_refl) as (_ & E2 & E3 & E4).
    change (Transaction._id x2) with (Transaction._id x) in E2. rewrite Hid in E2.
    eexists _, _. split; [reflexivity|]. split; [exact E2|].
    repeat split; assumption.
  - set (x2 := Transaction.set_status _ _).
    destruct (transaction_save_effect now false x2 d Hc) as (_ & E2 & E3 & E4).
    cbv zeta in E2.
    destruct (transaction_pre_save_keeps false x2) as (Kid & Kst & _).
    change (Transaction._id x2) with (Transaction._id x) in Kid.
    change (Transaction.status x2) with Transaction.pending in Kst.
    rewrite Kid, Kst, Hid in E2.
    rewrite (bool_decide_eq_false_2 (Transaction.pending = Transaction.completed))
      in E2 by discriminate.
    eexists _, _. split; [reflexivity|]. split; [exact E2|].
    split; [exact Kst|].
    unfold Transaction.pre_save. cbn [orb].
    destruct (JS.not_ (Transaction.amount_after_deduction x2));
      repeat split; assumption || reflexivity.
Qed.

(** X29.  The middleware of a valid payment sets the status of the
    transaction from the amounts alone, whatever the status was: completed
    when the old [paid_amount] plus the payment reaches [total_amount],
    pending otherwise, so a cancelled or voided transaction does not stay
    so.  When
    the payment completes the transaction, the transaction middleware
    stores [total_amount] as [paid_amount]; otherwise the stored
    [paid_amount] is the old one plus the payment.  Loans and payment rows
    do not change. *)
Theorem payment_sets_status_from_amounts (now : nat) (this : Payment.t) (d : Db.t)
    (x : Transaction.t) :
  Ledger.conforming (Db.loans d) ->
  Db.transactions d !! Payment.transaction this = Some x ->
  Transaction._id x = Payment.transaction this ->
  0 <= Payment.amount this ->
  let paid := Transaction.paid_amount x + Payment.amount this in
  let completes := JS.geb paid (Transaction.total_amount x) in
  exists (x' : Transaction.t) (d' : Db.t),
    App.payment_pre_save now this d = Some d'
    /\ Db.transactions d' !! Payment.transaction this = Some x'
    /\ Transaction.status x'
       = (if completes then Transaction.completed else Transaction.pending)
    /\ Transaction.status x' <> Transaction.cancelled
    /\ Transaction.status x' <> Transaction.voided
    /\ Transaction.paid_amount x'
       = (if completes then Transaction.total_amount x else paid)
    /\ Db.loans d' = Db.loans d
    /\ Db.loanpayments d' = Db.loanpayments d.
Proof.
  intros Hc Hfind Hid _ paid completes.
  destruct (payment_save_effect now this d x Hc Hfind Hid)
    as (x' & d' & E & T & S & P & _ & L & R).
  fold paid in S, P. fold completes in S, P.
  exists x', d'. split; [exact E|]. split; [rewrite T; apply lookup_insert_eq|].
  split; [exact S|].
  split; [rewrite S; destruct completes; discriminate|].
  split; [rewrite S; destruct completes; discriminate|].
  split; [exact P|]. split; assumption.
Qed.

Lemma payment_sets_status_from_amounts_witness :
  exists (x' : Transaction.t) (d' : Db.t),
    App.payment_pre_save 3 (Payment.mk 10 2500) Samples.unpaid_purchase = Some d'
    /\ Db.transactions d' !! Payment.transaction (Payment.mk 10 2500) = Some x'
    /\ Transaction.status x'
       = (if JS.geb (Transaction.paid_amount (Fixtures.purchase 10 2000)
                     + Payment.amount (Payment.mk 10 2500))
               (Transaction.total_amount (Fixtures.purchase 10 2000))
          then Transaction.completed else Transaction.pending)
    /\ Transaction.status x' <> Transaction.cancelled
    /\ Transaction.status x' <> Transaction.voided
    /\ Transaction.paid_amount x'
       = (if JS.geb (Transaction.paid_amount (Fixtures.purchase 10 2000)
                     + Payment.amount (Payment.mk 10 2500))
               (Transaction.total_amount (Fixtures.purchase 10 2000))
          then Transaction.total_amount (Fixtures.purchase 10 2000)
          else Transaction.paid_amount (Fixtures.purchase 10 2000)
               + Payment.amount (Payment.mk 10 2500))
    /\ Db.loans d' = Db.loans Samples.unpaid_purchase
    /\ Db.loanpayments d' = Db.loanpayments Samples.unpaid_purchase.
Proof.
  apply (payment_sets_status_from_amounts 3 (Payment.mk 10 2500) Samples.unpaid_purchase
           (Fixtures.purchase 10 2000)).
  - apply (bool_decide_unpack _). vm_compute. reflexivity.
  - vm_compute. reflexivity.
  - reflexivity.
  - vm_compute. discriminate.
Defined.

(** X30.  The 201 body of the payment handler describes the transaction
    before the payment: [transaction_status] is computed from the old
    [paid_amount] and [remaining_balance] is [total_amount] minus the old
    [paid_amount], while the stored transaction has the status and the
    [paid_amount] the payment has led to. *)
Theorem payment_reply_precedes_payment (now transaction_id : nat) (amount : Q)
    (type : Payment.Kind) (d : Db.t) (x : Transaction.t) :
  Ledger.conforming (Db.loans d) ->
  Db.transactions d !! transaction_id = Some x ->
  Transaction._id x = transaction_id ->
  0 <= amount ->
  let completes :=
    JS.geb (Transaction.paid_amount x + amount) (Transaction.total_amount x) in
  exists (x' : Transaction.t) (d' : Db.t),
    App.paymentRouter_post now transaction_id (Some amount) (Some type) d
    = (paymentRouter.Status201
         (paymentRouter.mk_reply
            (if JS.geb (Transaction.paid_amount x) (Transaction.total_amount x)
             then Transaction.completed else Transaction.pending)
            (Transaction.total_amount x - Transaction.paid_amount x)),
       d')
    /\ Db.transactions d' !! transaction_id = Some x'
    /\ Transaction.status x'
       = (if completes then Transaction.completed else Transaction.pending)
    /\ Transaction.paid_amount x'
       = (if completes then Transaction.total_amount x
          else Transaction.paid_amount x + amount)
    /\ Transaction.total_amount x' = Transaction.total_amount x.
Proof.
  intros Hc Hfind Hid Hamount completes.
  destruct (payment_save_effect now (Payment.mk transaction_id amount) d x Hc Hfind Hid)
    as (x' & d' & E & T & S & P & A & _ & _).
  cbn [Payment.amount Payment.transaction] in E, T, S, P.
  fold completes in S, P.
  exists x', d'. split.
  - unfold App.paymentRouter_post. rewrite Hfind.
    assert (Hgeb : JS.geb amount 0 = true) by (apply geb_iff; exact Hamount).
    rewrite Hgeb, E.
    destruct (JS.geb (Transaction.paid_amount x) (Transaction.total_amount x)); reflexivity.
  - split; [rewrite T; apply lookup_insert_eq|]. split; [exact S|]. split; assumption.
Qed.

Lemma payment_reply_precedes_payment_witness :
  exists (x' : Transaction.t) (d' : Db.t),
    App.paymentRouter_post 3 10 (Some 2500) (Some Payment.cash) Samples.unpaid_purchase
    = (paymentRouter.Status201
         (paymentRouter.mk_reply
            (if JS.geb (Transaction.paid_amount (Fixtures.purchase 10 2000))
                  (Transaction.total_amount (Fixtures.purchase 10 2000))
             then Transaction.completed else Transaction.pending)
            (Transaction.total_amount (Fixtures.purchase 10 2000)
             - Transaction.paid_amount (Fixtures.purchase 10 2000))),
       d')
    /\ Db.transactions d' !! 10%nat = Some x'
    /\ Transaction.status x'
       = (if JS.geb (Transaction.paid_amount (Fixtures.purchase 10 2000) + 2500)
               (Transaction.total_amount (Fixtures.purchase 10 2000))
          then Transaction.completed else Transaction.pending)
    /\ Transaction.paid_amount x'
       = (if JS.geb (Transaction.paid_amount (Fixtures.purchase 10 2000) + 2500)
               (Transaction.total_amount (Fixtures.purchase 10 2000))
          then Transaction.total_amount (Fixtures.purchase 10 2000)
          else Transaction.paid_amount (Fixtures.purchase 10 2000) + 2500)
    /\ Transaction.total_amount x' = Transaction.total_amount (Fixtures.purchase 10 2000).
Proof.
  apply (payment_reply_precedes_payment 3 10 2500 Payment.cash Samples.unpaid_purchase
           (Fixtures.purchase 10 2000)).
  - apply (bool_decide_unpack _). vm_compute. reflexivity.
  - vm_compute. reflexivity.
  - reflexivity.
  - vm_compute. discriminate.
Defined.

(** ** The interest split and first in, first out, on stored loans *)

(** C4.  The life of a loan of 1000 requested at 10 percent: the stored
    request and the approved loan have no interest rate and no total with
    interest.  A manual payment of 800 is due 100 of interest and 700 of
    principal; the middleware books no interest and 800 of principal on its
    document, and the stored loan has [total_paid] 800 and neither portion.
    The payment route, on the same loan, computes no portions at all. *)
Theorem payment_books_no_interest :
  let totalAmountWithInterest :=
    loanRouter.amount Fixtures.request_1000
    + loanRouter.amount Fixtures.request_1000
      * (loanRouter.interest_rate Fixtures.request_1000 / 100) in
  let interestPortion :=
    Qmin 800 (Qmax (totalAmountWithInterest - loanRouter.amount Fixtures.request_1000 - 0) 0) in
  let doc := LoanPayment.apply_payment 5 Fixtures.payment_800 Fixtures.loan_1000_plain in
  (interestPortion == 100 /\ 800 - interestPortion == 700)
  /\ Db.loans Samples.loan_requested !! 1%nat
     = Some (Loan.mk 1 7 1000 None None 0 None None Loan.pending None None 1)
  /\ Db.loans Samples.loan_approved !! 1%nat = Some Fixtures.loan_1000_plain
  /\ (App.loanRouter_post_payments 5 1 (Some 800) None Samples.loan_approved).1
     = Sent Fixtures.payment_800
  /\ (LoanPayment.num (Loan.interest_paid doc) == 0
      /\ LoanPayment.num (Loan.principal_paid doc) == 800
      /\ Loan.total_paid doc == 800
      /\ Loan.status doc = Loan.approved)
  /\ Db.loans Samples.loan_paid_800 !! 1%nat
     = Some (Loan.mk 1 7 1000 None None 800 None None Loan.approved (Some 5%nat) None 1)
  /\ loanPaymentRouter.distribution Fixtures.loan_1000_plain 800 = None.
Proof. by_evaluation. Qed.

(** C5.  Two approved loans of 100 and 500, the first created first, and a
    completed purchase of 500.  The query of the transaction middleware
    selects neither loan, so its loop over the outstanding loans does not
    run.  The create handler debits the first loan by 100 and closes it,
    and stops there: the second loan is stored as it was, where the claim
    has its [total_paid] raised by what is left of the budget. *)
Theorem fifo_stops_at_first_loan :
  Db.find_loans_oldest_first (transactionRouter.approved_of 7) Samples.two_stored_loans
  = [Samples.stored_100; Samples.stored_500]
  /\ Db.find_loans_oldest_first (TransactionHooks.outstanding 7) Samples.two_stored_loans
     = []
  /\ match App.transactionRouter_post 5 10 Samples.create_500 Samples.two_stored_loans with
     | (Sent transaction, d) =>
         Transaction.status transaction = Transaction.completed
         /\ Transaction.total_amount transaction == 500
         /\ Transaction.loan_deduction transaction == 100
         /\ Transaction.loan_payments transaction = [Transaction.mk_ref 1 100]
         /\ Transaction.loan_deduction transaction < 0.4 * Transaction.total_amount transaction
         /\ match Db.loans d !! 1%nat, Db.loans d !! 2%nat with
            | Some L1, Some L2 =>
                Loan.status L1 = Loan.paid
                /\ Loan.total_paid L1 == 100
                /\ L2 = Samples.stored_500
            | _, _ => False
            end
         /\ length (Db.loanpayments d) = 1%nat
     | (Failed _, _) => False
     end.
Proof. by_evaluation. Qed.
